(** * beerest: the assertion chain of [beerest/core/expect.py]

    A shallow embedding of the [Check] record, the [ExpectError] exception
    with its report formatter and the [Expect] fluent chain, followed by the
    properties of the chain that the specification states.

    Conventions of the embedding.
    - Python values are the JSON-shaped fragment [PyVal]: [None], booleans,
      integers, text, lists, dictionaries with text keys (insertion order
      kept) and the sets of names built by [has_keys].  Floating point
      numbers and user classes are outside the fragment.
    - Text is a [string] holding UTF-8; [len] and slicing count code points.
    - A method of [Expect] is a function from the chain to an [Outcome]:
      either the chain it returns ([self], after its mutations) or the
      exception it raises together with the chain as the raise left it.
    - The clock, the call stack and the external capabilities (JSONPath,
      regular expressions, schema validation) are inputs. *)

From Stdlib Require Import ZArith List String Ascii Bool Lia DecimalString.
From Stdlib Require DecimalPos DecimalZ.
Import ListNotations.
Local Open Scope string_scope.
Local Open Scope Z_scope.

Set Implicit Arguments.

(** ** Python values *)

#[warnings="-register-all"]
Inductive PyVal : Type :=
| VNone
| VBool (b : bool)
| VInt (z : Z)
| VStr (s : string)
| VList (l : list PyVal)
| VDict (d : list (string * PyVal))
| VSet (names : list string).

Module Py.

(** *** Text helpers *)

(** The line feed. *)
Definition nl : string := String (ascii_of_N 10) "".

Fixpoint join (sep : string) (parts : list string) : string :=
  match parts with
  | [] => ""
  | [p] => p
  | p :: rest => p ++ sep ++ join sep rest
  end.

Fixpoint repeat_str (s : string) (n : nat) : string :=
  match n with
  | O => ""
  | S k => s ++ repeat_str s k
  end.

(** A byte that continues a UTF-8 sequence: [0b10xxxxxx]. *)
Definition is_continuation (c : ascii) : bool :=
  let n := N_of_ascii c in (128 <=? n)%N && (n <? 192)%N.

(** [len(s)]: the number of code points. *)
Fixpoint len_str (s : string) : nat :=
  match s with
  | EmptyString => O
  | String c rest =>
      if is_continuation c then len_str rest else S (len_str rest)
  end.

(** [s[:n]]: the first [n] code points; the continuation bytes that
    follow a kept code point belong to it. *)
Fixpoint prefix_str (n : nat) (s : string) : string :=
  match s with
  | EmptyString => ""
  | String c rest =>
      if is_continuation c then String c (prefix_str n rest)
      else match n with
           | O => ""
           | S k => String c (prefix_str k rest)
           end
  end.

(** [s[:-k]]. *)
Definition drop_last (k : nat) (s : string) : string :=
  prefix_str (len_str s - k) s.

(** [sub in s] on text. *)
Fixpoint is_substring (sub s : string) : bool :=
  if String.prefix sub s then true
  else match s with
       | EmptyString => false
       | String _ rest => is_substring sub rest
       end.

Fixpoint contains_char (c : ascii) (s : string) : bool :=
  match s with
  | EmptyString => false
  | String d rest => Ascii.eqb c d || contains_char c rest
  end.

Definition starts_with (pre s : string) : bool := String.prefix pre s.

(** Decimal text of an integer, as [str] prints it.  Python prints the
    integers of at most 4300 digits and raises [ValueError] on the others;
    the text given here for those is not what the code sees. *)
Definition str_int (z : Z) : string := NilZero.string_of_int (Z.to_int z).

(** Decimal text of a natural number on at least [width] digits, zero
    padded on the left (the [%H], [%M], [%S] and [%f] fields). *)
Definition pad_nat (width : nat) (n : N) : string :=
  let digits := NilZero.string_of_uint (N.to_uint n) in
  repeat_str "0" (width - String.length digits) ++ digits.

(** *** [repr] of text *)

Definition dquote : ascii := ascii_of_N 34.

Definition hex_digit (n : N) : ascii :=
  if (n <? 10)%N then ascii_of_N (48 + n) else ascii_of_N (87 + n).

(** One character of a [repr]: backslash and the enclosing quote are
    escaped, tab, line feed and carriage return get their letter, the other
    control characters of ASCII a [\xNN] escape.  Bytes of a multi-byte code
    point pass unchanged (printable text). *)
Definition repr_char (quote c : ascii) : string :=
  let n := N_of_ascii c in
  if Ascii.eqb c "\"%char then "\\"
  else if Ascii.eqb c quote then String "\"%char (String c "")
  else if (n =? 9)%N then "\t"
  else if (n =? 10)%N then "\n"
  else if (n =? 13)%N then "\r"
  else if (n <? 32)%N || (n =? 127)%N then
    String "\"%char (String "x"%char
      (String (hex_digit (n / 16)) (String (hex_digit (n mod 16)) "")))
  else String c "".

Fixpoint repr_chars (quote : ascii) (s : string) : string :=
  match s with
  | EmptyString => ""
  | String c rest => repr_char quote c ++ repr_chars quote rest
  end.

(** [repr(s)]: single quotes, unless the text holds a single quote and no
    double quote. *)
Definition repr_str (s : string) : string :=
  let quote :=
    if contains_char "'"%char s && negb (contains_char dquote s)
    then dquote else "'"%char in
  String quote (repr_chars quote s ++ String quote "").

End Py.

(** ** The data model of Python on [PyVal] *)

Module PyData.
Import Py.

(** [repr(v)]; on the fragment it differs from [str(v)] on text only. *)
Fixpoint py_repr (v : PyVal) : string :=
  match v with
  | VNone => "None"
  | VBool true => "True"
  | VBool false => "False"
  | VInt z => str_int z
  | VStr s => repr_str s
  | VList l => "[" ++ join ", " (map py_repr l) ++ "]"
  | VDict d =>
      "{" ++ join ", "
               (map (fun kv : string * PyVal => let (k, x) := kv in
                               repr_str k ++ ": " ++ py_repr x) d) ++ "}"
  | VSet [] => "set()"
  | VSet names => "{" ++ join ", " (map repr_str names) ++ "}"
  end.

(** [str(v)]. *)
Definition py_str (v : PyVal) : string :=
  match v with
  | VStr s => s
  | _ => py_repr v
  end.

(** [bool(v)], the truth value used by [if v] and [not v]. *)
Definition py_bool (v : PyVal) : bool :=
  match v with
  | VNone => false
  | VBool b => b
  | VInt z => negb (z =? 0)
  | VStr s => negb (String.eqb s "")
  | VList l => match l with [] => false | _ => true end
  | VDict d => match d with [] => false | _ => true end
  | VSet n => match n with [] => false | _ => true end
  end.

(** [v is not None]. *)
Definition is_not_none (v : PyVal) : bool :=
  match v with VNone => false | _ => true end.

(** [d.get(k)] on an insertion-ordered dictionary. *)
Fixpoint dict_get {A : Type} (k : string) (d : list (string * A)) : option A :=
  match d with
  | [] => None
  | (k', x) :: rest => if String.eqb k k' then Some x else dict_get k rest
  end.

(** [k in d] for a name [k]. *)
Definition has_key {A : Type} (d : list (string * A)) (k : string) : bool :=
  match dict_get k d with Some _ => true | None => false end.

Definition mem_str (k : string) (names : list string) : bool :=
  existsb (String.eqb k) names.

(** [set(names)]: duplicates dropped.  The order in which Python walks a
    set follows the hashes of its members; here it is the order of first
    occurrence. *)
Fixpoint dedup (names : list string) : list string :=
  match names with
  | [] => []
  | n :: rest => n :: filter (fun m => negb (String.eqb n m)) (dedup rest)
  end.

(** The integer a boolean or an integer stands for in arithmetic. *)
Definition as_number (v : PyVal) : option Z :=
  match v with
  | VBool b => Some (if b then 1 else 0)
  | VInt z => Some z
  | _ => None
  end.

(** [a == b]. *)
Fixpoint py_eq (a b : PyVal) : bool :=
  match a, b with
  | VNone, VNone => true
  | VBool x, _ =>
      match as_number b with
      | Some z => (if x then 1 else 0) =? z
      | None => false
      end
  | VInt x, _ =>
      match as_number b with Some z => x =? z | None => false end
  | VStr s, VStr t => String.eqb s t
  | VList l, VList m =>
      (fix go (l m : list PyVal) : bool :=
         match l, m with
         | [], [] => true
         | x :: l', y :: m' => py_eq x y && go l' m'
         | _, _ => false
         end) l m
  | VDict d, VDict e =>
      Nat.eqb (List.length d) (List.length e) &&
      (fix go (d : list (string * PyVal)) : bool :=
         match d with
         | [] => true
         | (k, x) :: d' =>
             match dict_get k e with
             | Some y => py_eq x y
             | None => false
             end && go d'
         end) d
  | VSet s, VSet t =>
      forallb (fun k => mem_str k t) s && forallb (fun k => mem_str k s) t
  | _, _ => false
  end.

(** The operations below fail with [TypeError] on operands they do not
    support; [None] stands for that [TypeError]. *)

(** [len(v)]. *)
Definition py_len (v : PyVal) : option nat :=
  match v with
  | VStr s => Some (len_str s)
  | VList l => Some (List.length l)
  | VDict d => Some (List.length d)
  | VSet n => Some (List.length n)
  | VNone | VBool _ | VInt _ => None
  end.

(** Values that can be hashed (dictionary and set lookups hash the key). *)
Definition hashable (v : PyVal) : bool :=
  match v with
  | VNone | VBool _ | VInt _ | VStr _ => true
  | VList _ | VDict _ | VSet _ => false
  end.

(** [x in c]. *)
Definition py_in (x c : PyVal) : option bool :=
  match c with
  | VStr s =>
      match x with
      | VStr sub => Some (is_substring sub s)
      | _ => None
      end
  | VList l => Some (existsb (fun el => py_eq el x) l)
  | VDict d =>
      if hashable x then
        Some (match x with
              | VStr k => has_key d k
              | _ => false
              end)
      else None
  | VSet names =>
      match x with
      | VStr k => Some (mem_str k names)
      | VList _ | VDict _ => None
      | _ => Some false
      end
  | VNone | VBool _ | VInt _ => None
  end.

(** Code point order on text (the byte order of UTF-8 agrees with it). *)
Fixpoint str_ltb (s t : string) : bool :=
  match s, t with
  | EmptyString, EmptyString => false
  | EmptyString, String _ _ => true
  | String _ _, EmptyString => false
  | String a s', String b t' =>
      if (N_of_ascii a <? N_of_ascii b)%N then true
      else if Ascii.eqb a b then str_ltb s' t'
      else false
  end.

Inductive Cmp : Type := Less | Greater.

Definition cmp_Z (op : Cmp) (x y : Z) : bool :=
  match op with Less => x <? y | Greater => y <? x end.

Definition subset (s t : list string) : bool :=
  forallb (fun k => mem_str k t) s.

(** [a < b] and [a > b]: numbers by value, text by code points, lists by
    their first differing element, sets by strict inclusion; anything else
    is not ordered. *)
Fixpoint py_order (op : Cmp) (a b : PyVal) : option bool :=
  match a, b with
  | VStr s, VStr t =>
      Some (match op with Less => str_ltb s t | Greater => str_ltb t s end)
  | VList l, VList m =>
      (fix go (l m : list PyVal) : option bool :=
         match l, m with
         | x :: l', y :: m' => if py_eq x y then go l' m' else py_order op x y
         | [], [] => Some false
         | [], _ :: _ => Some (match op with Less => true | Greater => false end)
         | _ :: _, [] => Some (match op with Less => false | Greater => true end)
         end) l m
  | VSet s, VSet t =>
      Some (match op with
            | Less => subset s t && negb (subset t s)
            | Greater => subset t s && negb (subset s t)
            end)
  | _, _ =>
      match as_number a, as_number b with
      | Some x, Some y => Some (cmp_Z op x y)
      | _, _ => None
      end
  end.

End PyData.

(** ** Check records, responses and exceptions *)

(** [datetime]: the reading of the wall clock a [Check] is stamped with. *)
Record datetime : Type := {
  year : N; month : N; day : N;
  hour : N; minute : N; second : N; microsecond : N
}.

(** [ts.strftime('%H:%M:%S.%f')]. *)
Definition strftime_HMSf (ts : datetime) : string :=
  Py.pad_nat 2 (hour ts) ++ ":" ++ Py.pad_nat 2 (minute ts) ++ ":" ++
  Py.pad_nat 2 (second ts) ++ "." ++ Py.pad_nat 6 (microsecond ts).

(** The dataclass [Check]. *)
Record Check : Type := {
  passed : bool;
  message : string;
  actual : PyVal;
  expected : PyVal;
  context : option string;
  timestamp : datetime
}.

(** Modelled from the spec: the class [Response] of [beerest/core/response.py],
    which is not among the sources.  The specification lists what it exposes:
    [status_code], [headers] (looked up by name), [json_data] (the decoded
    body, or [None]) and [elapsed_time]. *)
Record Response : Type := {
  status_code : PyVal;
  headers : list (string * PyVal);
  json_data : PyVal;
  elapsed_time : PyVal
}.

(** A frame of the call stack, as the stack walk of the formatter reads it. *)
Record Frame : Type := {
  co_name : string;
  co_filename : string;
  f_lineno : Z
}.

(** The exceptions the chain can let through.  [ExpectError] carries its
    [message], [checks] and [response] attributes and the report that its
    constructor hands to [Exception.__init__].  [CollaboratorError] is an
    exception raised inside an external capability or a caller's predicate. *)
Inductive Exn : Type :=
| ExpectError (message : string) (checks : list Check)
              (response : option Response) (report : string)
| ValueError (msg : string)
| TypeError
| AttributeError
| AssertionError (msg : string)
| CollaboratorError (origin : string).

(** ** [ExpectError.format_message] *)

Module Report.
Import Py PyData.

Definition divider : string := repeat_str "━" 100.
Definition bullet : string := "•".
Definition arrow : string := "→".

(** The stack walk: the innermost frame whose function name starts with
    [test_].  [frames] is the stack from the caller of the chain outwards;
    the frames of the chain itself ([format_message], [__init__],
    [_add_check], the predicate) never carry such a name. *)
Definition test_info (frames : list Frame) : string :=
  match find (fun f => starts_with "test_" (co_name f)) frames with
  | Some f =>
      "Test: " ++ co_name f ++ nl ++
      "File: " ++ co_filename f ++ ":" ++ str_int (f_lineno f)
  | None => ""
  end.

Definition test_block (frames : list Frame) : list string :=
  if negb (String.eqb (test_info frames) "") then
    [ "📋 Test Information:";
      "   " ++ bullet ++ " " ++ test_info frames;
      "" ]
  else [].

(** The preview of the body, cut after 150 characters. *)
Definition json_preview (body : PyVal) : string :=
  let text := py_str body in
  if (150 <? len_str text)%nat then prefix_str 150 text ++ "..." else text.

(** The block on the response.  [if self.response] holds for every response
    object, and the object has the attributes [elapsed_time] and
    [json_data]; the body is shown when it is truthy. *)
Definition response_block (response : option Response) : list string :=
  match response with
  | Some r =>
      List.concat
        [ [ "📡 Response Information:";
            "   " ++ bullet ++ " Status: " ++ py_str (status_code r) ];
          [ "   " ++ bullet ++ " Time: " ++ py_str (elapsed_time r) ++ "ms" ];
          if py_bool (json_data r)
          then [ "   " ++ bullet ++ " Body: " ++ json_preview (json_data r) ]
          else [];
          [ "" ] ]
  | None => []
  end.

Definition failure_block (check : Check) : list string :=
  [ "❌ Failure:";
    "   " ++ arrow ++ " Type: " ++ message check;
    "   " ++ arrow ++ " Expected: " ++ py_str (expected check);
    "   " ++ arrow ++ " Received: " ++ py_str (actual check);
    "   " ++ arrow ++ " Time: " ++ drop_last 3 (strftime_HMSf (timestamp check));
    "" ].

Definition failed_checks (checks : list Check) : list Check :=
  filter (fun c => negb (passed c)) checks.

Definition format_message (frames : list Frame) (checks : list Check)
    (response : option Response) : string :=
  let message_parts :=
    List.concat
      [ [ nl ++ "🔴 TEST ASSERTION FAILED"; divider; "" ];
        test_block frames;
        response_block response;
        flat_map failure_block (failed_checks checks);
        [ divider ] ] in
  join nl message_parts.

(** [ExpectError(message, checks, response)]. *)
Definition new_ExpectError (frames : list Frame) (message : string)
    (checks : list Check) (response : option Response) : Exn :=
  ExpectError message checks response (format_message frames checks response).

End Report.

(** ** The class [Expect] *)

(** What a call reads from outside the chain: the clock ([datetime.now()],
    read when a [Check] is built) and the call stack above the chain. *)
Record Env : Type := {
  now : datetime;
  frames : list Frame
}.

(** The result of [SchemaValidator.validate]. *)
Record ValidationResult : Type := {
  is_valid : bool;
  error_messages : PyVal
}.

Module Expect.
Import Py PyData Report.

(** The attributes of an [Expect] object.  The response is held by
    reference and is part of the state so that a method could change it. *)
Record t : Type := {
  response : Response;
  checks : list Check;
  context : option string;
  _current_value : PyVal;
  _current_path : PyVal;
  _soft_assert : bool
}.

(** The outcome of a method call: the chain returned ([return self]) or the
    exception raised, with the chain in the state the raise left it in. *)
Inductive Outcome : Type :=
| Return (self : t)
| Raise (exn : Exn) (self : t).

Definition bind (o : Outcome) (k : t -> Outcome) : Outcome :=
  match o with
  | Return self => k self
  | Raise exn self => Raise exn self
  end.

Notation "'do' x <- o ; k" := (bind o (fun x => k))
  (at level 10, x name, o at level 100, k at level 200).

Definition final (o : Outcome) : t :=
  match o with Return self => self | Raise _ self => self end.

(** [Expect(response, context)]. *)
Definition init (response : Response) (context : option string) : t :=
  {| response := response; checks := []; context := context;
     _current_value := VNone; _current_path := VNone;
     _soft_assert := false |}.

(** [self._current_value = v]. *)
Definition set_current_value (self : t) (v : PyVal) : t :=
  {| response := response self; checks := checks self;
     context := context self; _current_value := v;
     _current_path := _current_path self;
     _soft_assert := _soft_assert self |}.

(** [self.checks.append(check)]. *)
Definition append_check (self : t) (check : Check) : t :=
  {| response := response self; checks := (checks self ++ [check])%list;
     context := context self; _current_value := _current_value self;
     _current_path := _current_path self;
     _soft_assert := _soft_assert self |}.

Definition _add_check (env : Env) (self : t) (passed : bool)
    (message : string) (actual expected : PyVal) : Outcome :=
  let check := Build_Check passed message actual expected
                           (context self) (now env) in
  let self := append_check self check in
  if negb passed then
    Raise (new_ExpectError (frames env) "Assertion failed" [check]
                           (Some (response self))) self
  else Return self.

Definition equals (env : Env) (self : t) (expected : PyVal) : Outcome :=
  let passed :=
    String.eqb (py_str (_current_value self)) (py_str expected) in
  do self <- _add_check env self passed "equality check"
                        (_current_value self) expected;
  if negb passed then
    Raise (AssertionError ("Expected " ++ py_str expected ++ ", but got " ++
                           py_str (_current_value self))) self
  else Return self.

(** [status(code)]; [code] is [VNone] when the argument is left out. *)
Definition status (env : Env) (self : t) (code : PyVal) : Outcome :=
  let self := set_current_value self (status_code (response self)) in
  if is_not_none code then equals env self code else Return self.

Section Capabilities.

(** [jsonpath_ng.parse(path).find(document)], as the values of the matches
    in order; [None] when parsing or evaluation raises. *)
Variable jsonpath_find : string -> PyVal -> option (list PyVal).

(** [bool(re.match(pattern, text))]; [None] when [re] raises. *)
Variable re_match : string -> string -> option bool.

(** [SchemaValidator.load_schema] and [SchemaValidator.validate] of
    [beerest/core/schema.py]; [None] when they raise. *)
Variable load_schema : string -> option PyVal.
Variable validate : PyVal -> PyVal -> option ValidationResult.

(** [if path:] holds for a text that is not empty; [None] is the default
    of the parameter. *)
Definition path_given (path : option string) : bool :=
  match path with
  | Some p => negb (String.eqb p "")
  | None => false
  end.

Definition path_text (path : option string) : string :=
  match path with Some p => p | None => "None" end.

Definition body (self : t) (path : option string) : Outcome :=
  if path_given path then
    if negb (py_bool (json_data (response self))) then
      Raise (ValueError "Response has no JSON data") self
    else
      match jsonpath_find (path_text path) (json_data (response self)) with
      | Some matches =>
          Return (set_current_value self
                    (match matches with m :: _ => m | [] => VNone end))
      | None => Raise (ValueError ("Invalid JSONPath: " ++ path_text path)) self
      end
  else
    Return (set_current_value self (json_data (response self))).

Definition header (self : t) (name : string) : Outcome :=
  Return (set_current_value self
            (match dict_get name (headers (response self)) with
             | Some v => v
             | None => VNone
             end)).

Definition time (self : t) : Outcome :=
  Return (set_current_value self (elapsed_time (response self))).

Definition contains (env : Env) (self : t) (expected : PyVal) : Outcome :=
  match py_in expected (_current_value self) with
  | Some found =>
      _add_check env self found "contains check" (_current_value self) expected
  | None => Raise TypeError self
  end.

Definition matches (env : Env) (self : t) (pattern : string) : Outcome :=
  match re_match pattern (py_str (_current_value self)) with
  | Some matched =>
      _add_check env self matched "pattern match"
                 (_current_value self) (VStr pattern)
  | None => Raise (CollaboratorError "re.match") self
  end.

Definition less_than (env : Env) (self : t) (value : PyVal) : Outcome :=
  match py_order Less (_current_value self) value with
  | Some lt =>
      _add_check env self lt "less than check" (_current_value self) value
  | None => Raise TypeError self
  end.

Definition greater_than (env : Env) (self : t) (value : PyVal) : Outcome :=
  match py_order Greater (_current_value self) value with
  | Some gt =>
      _add_check env self gt "greater than check" (_current_value self) value
  | None => Raise TypeError self
  end.

Definition has_length (env : Env) (self : t) (length : PyVal) : Outcome :=
  match py_len (_current_value self) with
  | Some n =>
      _add_check env self (py_eq (VInt (Z.of_nat n)) length) "length check"
                 (VInt (Z.of_nat n)) length
  | None => Raise TypeError self
  end.

Definition is_json (env : Env) (self : t) : Outcome :=
  _add_check env self (is_not_none (json_data (response self)))
             "JSON validation"
             (VBool (py_bool (json_data (response self)))) VNone.

(** The comprehension [[k for k in keys if k not in cursor]]; [None] when
    a membership test raises [TypeError]. *)
Fixpoint missing_keys (keys : list string) (cursor : PyVal)
    : option (list string) :=
  match keys with
  | [] => Some []
  | k :: rest =>
      match py_in (VStr k) cursor with
      | Some found =>
          match missing_keys rest cursor with
          | Some missing => Some (if found then missing else k :: missing)
          | None => None
          end
      | None => None
      end
  end.

(** [has_keys], called with any number of names: the cursor must also offer [keys()], which only a
    dictionary does. *)
Definition has_keys (env : Env) (self : t) (keys : list string) : Outcome :=
  match missing_keys keys (_current_value self) with
  | Some missing =>
      match _current_value self with
      | VDict d =>
          _add_check env self
                     (match missing with [] => true | _ => false end)
                     "keys presence check"
                     (VSet (dedup (map fst d))) (VSet (dedup keys))
      | _ => Raise AttributeError self
      end
  | None => Raise TypeError self
  end.

(** [satisfies(predicate, message)]; the caller's predicate is a function
    of the cursor, [None] when it raises. *)
Definition satisfies (env : Env) (self : t)
    (predicate : PyVal -> option bool) (message : string) : Outcome :=
  match predicate (_current_value self) with
  | Some holds =>
      _add_check env self holds message (_current_value self) VNone
  | None => Raise (CollaboratorError "predicate") self
  end.

Definition default_message : string := "custom check".

Definition matches_schema (env : Env) (self : t) (schema : PyVal) : Outcome :=
  let loaded :=
    match schema with
    | VStr reference => load_schema reference
    | _ => Some schema
    end in
  match loaded with
  | Some schema =>
      match validate (_current_value self) schema with
      | Some result =>
          _add_check env self (is_valid result)
                     ("schema validation: " ++
                      py_str (if negb (is_valid result)
                              then error_messages result else VStr ""))
                     (_current_value self) schema
      | None => Raise (CollaboratorError "SchemaValidator.validate") self
      end
  | None => Raise (CollaboratorError "SchemaValidator.load_schema") self
  end.

Definition has_type (env : Env) (self : t) (expected_type : string) : Outcome :=
  matches_schema env self (VDict [("type", VStr expected_type)]).

Definition has_array_items (env : Env) (self : t) (item_schema : PyVal)
    : Outcome :=
  matches_schema env self
                 (VDict [("type", VStr "array"); ("items", item_schema)]).

End Capabilities.

End Expect.

(** ** Calls on a chain *)

(** A predicate method together with its arguments. *)
Inductive PredicateCall : Type :=
| CallEquals (expected : PyVal)
| CallContains (expected : PyVal)
| CallMatches (pattern : string)
| CallLessThan (value : PyVal)
| CallGreaterThan (value : PyVal)
| CallHasLength (length : PyVal)
| CallIsJson
| CallHasKeys (keys : list string)
| CallSatisfies (predicate : PyVal -> option bool) (message : string)
| CallMatchesSchema (schema : PyVal)
| CallHasType (expected_type : string)
| CallHasArrayItems (item_schema : PyVal).

(** Any public method of [Expect] together with its arguments. *)
Inductive Call : Type :=
| CallStatus (code : PyVal)
| CallBody (path : option string)
| CallHeader (name : string)
| CallTime
| CallPredicate (p : PredicateCall).

(** What a predicate was evaluated to and with. *)
Record Evaluation : Type := {
  holds : bool;
  label : string;
  observed : PyVal;
  against : PyVal
}.

Section Dispatch.
Import PyData.

Variable jsonpath_find : string -> PyVal -> option (list PyVal).
Variable re_match : string -> string -> option bool.
Variable load_schema : string -> option PyVal.
Variable validate : PyVal -> PyVal -> option ValidationResult.

Definition run_predicate (p : PredicateCall) (env : Env) (self : Expect.t)
    : Expect.Outcome :=
  match p with
  | CallEquals expected => Expect.equals env self expected
  | CallContains expected => Expect.contains env self expected
  | CallMatches pattern => Expect.matches re_match env self pattern
  | CallLessThan value => Expect.less_than env self value
  | CallGreaterThan value => Expect.greater_than env self value
  | CallHasLength length => Expect.has_length env self length
  | CallIsJson => Expect.is_json env self
  | CallHasKeys keys => Expect.has_keys env self keys
  | CallSatisfies predicate message =>
      Expect.satisfies env self predicate message
  | CallMatchesSchema schema =>
      Expect.matches_schema load_schema validate env self schema
  | CallHasType expected_type =>
      Expect.has_type load_schema validate env self expected_type
  | CallHasArrayItems item_schema =>
      Expect.has_array_items load_schema validate env self item_schema
  end.

Definition run (c : Call) (env : Env) (self : Expect.t) : Expect.Outcome :=
  match c with
  | CallStatus code => Expect.status env self code
  | CallBody path => Expect.body jsonpath_find self path
  | CallHeader name => Expect.header self name
  | CallTime => Expect.time self
  | CallPredicate p => run_predicate p env self
  end.

(** The schema a schema predicate validates against, once a reference has
    been resolved. *)
Definition resolved_schema (schema : PyVal) : option PyVal :=
  match schema with
  | VStr reference => load_schema reference
  | _ => Some schema
  end.

Definition schema_evaluation (cursor schema : PyVal) : option Evaluation :=
  match resolved_schema schema with
  | Some schema =>
      match validate cursor schema with
      | Some result =>
          Some {| holds := is_valid result;
                  label := "schema validation: " ++
                           (if is_valid result then ""
                            else py_str (error_messages result));
                  observed := cursor;
                  against := schema |}
      | None => None
      end
  | None => None
  end.

(** The predicates as section 4.1 of the specification words them: the
    condition a predicate tests on the cursor, its label, and the values
    its record reports; [None] when the condition cannot be evaluated on
    that cursor. *)
Definition predicate_evaluation (p : PredicateCall) (self : Expect.t)
    : option Evaluation :=
  let cursor := Expect._current_value self in
  let body := json_data (Expect.response self) in
  match p with
  | CallEquals expected =>
      Some {| holds := String.eqb (py_str cursor) (py_str expected);
              label := "equality check";
              observed := cursor; against := expected |}
  | CallContains expected =>
      option_map (fun found =>
                    {| holds := found; label := "contains check";
                       observed := cursor; against := expected |})
                 (py_in expected cursor)
  | CallMatches pattern =>
      option_map (fun matched =>
                    {| holds := matched; label := "pattern match";
                       observed := cursor; against := VStr pattern |})
                 (re_match pattern (py_str cursor))
  | CallLessThan value =>
      option_map (fun lt =>
                    {| holds := lt; label := "less than check";
                       observed := cursor; against := value |})
                 (py_order Less cursor value)
  | CallGreaterThan value =>
      option_map (fun gt =>
                    {| holds := gt; label := "greater than check";
                       observed := cursor; against := value |})
                 (py_order Greater cursor value)
  | CallHasLength length =>
      option_map (fun n =>
                    {| holds := py_eq (VInt (Z.of_nat n)) length;
                       label := "length check";
                       observed := VInt (Z.of_nat n); against := length |})
                 (py_len cursor)
  | CallIsJson =>
      Some {| holds := is_not_none body; label := "JSON validation";
              observed := VBool (py_bool body); against := VNone |}
  | CallHasKeys keys =>
      match cursor with
      | VDict d =>
          Some {| holds := forallb (has_key d) keys;
                  label := "keys presence check";
                  observed := VSet (dedup (map fst d));
                  against := VSet (dedup keys) |}
      | _ => None
      end
  | CallSatisfies predicate message =>
      option_map (fun ok =>
                    {| holds := ok; label := message;
                       observed := cursor; against := VNone |})
                 (predicate cursor)
  | CallMatchesSchema schema => schema_evaluation cursor schema
  | CallHasType expected_type =>
      schema_evaluation cursor (VDict [("type", VStr expected_type)])
  | CallHasArrayItems item_schema =>
      schema_evaluation cursor
        (VDict [("type", VStr "array"); ("items", item_schema)])
  end.

(** The record a predicate leaves for an evaluation. *)
Definition record_of (ev : Evaluation) (env : Env) (self : Expect.t) : Check :=
  {| passed := holds ev; message := label ev;
     actual := observed ev; expected := against ev;
     context := Expect.context self; timestamp := now env |}.

End Dispatch.

(** The shape a cursor needs for [len] and for [in]. *)
Definition sized (v : PyVal) : bool :=
  match v with
  | VStr _ | VList _ | VDict _ | VSet _ => true
  | VNone | VBool _ | VInt _ => false
  end.

Definition supports_membership (v : PyVal) : bool :=
  match v with
  | VStr _ | VList _ | VDict _ | VSet _ => true
  | VNone | VBool _ | VInt _ => false
  end.

(** A cursor that does not meet the shape a predicate needs: no size for
    [has_length], no membership test for [contains], no order with the
    argument for [less_than] and [greater_than]. *)
Inductive shape_violation : PredicateCall -> PyVal -> Prop :=
| not_sized (cursor length : PyVal) :
    sized cursor = false ->
    shape_violation (CallHasLength length) cursor
| no_membership (cursor expected : PyVal) :
    supports_membership cursor = false ->
    shape_violation (CallContains expected) cursor
| not_ordered_less (cursor value : PyVal) :
    PyData.py_order PyData.Less cursor value = None ->
    shape_violation (CallLessThan value) cursor
| not_ordered_greater (cursor value : PyVal) :
    PyData.py_order PyData.Greater cursor value = None ->
    shape_violation (CallGreaterThan value) cursor.

(** [True] when the exception is the assertion failure signal. *)
Definition is_ExpectError (x : Exn) : bool :=
  match x with ExpectError _ _ _ _ => true | _ => false end.

(** ** Sample inputs *)

Module Sample.

Definition clock : datetime :=
  {| year := 2024%N; month := 5%N; day := 17%N;
     hour := 9%N; minute := 41%N; second := 3%N; microsecond := 120450%N |}.

Definition env : Env :=
  {| now := clock;
     frames := [ {| co_name := "check_users"; co_filename := "helpers.py";
                    f_lineno := 8 |};
                 {| co_name := "test_users"; co_filename := "test_api.py";
                    f_lineno := 21 |} ] |}.

(** The same test at the same line, called without the helper between. *)
Definition env_direct : Env :=
  {| now := clock;
     frames := [ {| co_name := "test_users"; co_filename := "test_api.py";
                    f_lineno := 21 |} ] |}.

(** The same test, one line further down. *)
Definition env_next_line : Env :=
  {| now := clock;
     frames := [ {| co_name := "test_users"; co_filename := "test_api.py";
                    f_lineno := 22 |} ] |}.

Definition users : PyVal :=
  VDict [("users", VList [VDict [("id", VInt 1)]; VDict [("id", VInt 2)]])].

Definition response_ok : Response :=
  {| status_code := VInt 200;
     headers := [("Content-Type", VStr "application/json")];
     json_data := users;
     elapsed_time := VInt 12 |}.

Definition response_not_found : Response :=
  {| status_code := VInt 404; headers := [];
     json_data := VDict [("error", VStr "not found")];
     elapsed_time := VInt 7 |}.

(** A response that carries no JSON: [json_data] is [None]. *)
Definition response_without_json : Response :=
  {| status_code := VInt 204; headers := [];
     json_data := VNone; elapsed_time := VInt 3 |}.

(** A response whose body decodes to the empty object. *)
Definition response_empty_object : Response :=
  {| status_code := VInt 200; headers := [];
     json_data := VDict []; elapsed_time := VInt 3 |}.

(** A path evaluation that finds no match, whatever the document. *)
Definition finds_nothing (path : string) (document : PyVal)
    : option (list PyVal) := Some [].

(** A path evaluation that raises on every expression. *)
Definition always_raises (path : string) (document : PyVal)
    : option (list PyVal) := None.

Definition passing_check : Check :=
  {| passed := true; message := "equality check";
     actual := VInt 200; expected := VInt 200;
     context := None; timestamp := clock |}.

Definition failing_check : Check :=
  {| passed := false; message := "length check";
     actual := VInt 2; expected := VInt 3;
     context := None; timestamp := clock |}.

(** A chain on [response_ok] that already holds a passing record and whose
    cursor is the status code. *)
Definition chain_on_status : Expect.t :=
  {| Expect.response := response_ok;
     Expect.checks := [passing_check];
     Expect.context := Some "users endpoint";
     Expect._current_value := VInt 200;
     Expect._current_path := VNone;
     Expect._soft_assert := false |}.

(** The same chain after [body("$.users")]: the cursor is the list of the
    two users. *)
Definition chain_on_users : Expect.t :=
  Expect.set_current_value chain_on_status
    (VList [VDict [("id", VInt 1)]; VDict [("id", VInt 2)]]).

(** Stand-ins for the capabilities no sample call reaches. *)
Definition no_regex (pattern text : string) : option bool := None.
Definition no_loader (reference : string) : option PyVal := None.
Definition no_validator (value schema : PyVal) : option ValidationResult :=
  None.

End Sample.

(** ** Chains of calls *)

Section Chaining.

Variable jsonpath_find : string -> PyVal -> option (list PyVal).
Variable re_match : string -> string -> option bool.
Variable load_schema : string -> option PyVal.
Variable validate : PyVal -> PyVal -> option ValidationResult.

(** A fluent expression [Expect(r).a(..).b(..)...]: the calls run in order
    on the chain each one returns, every call with the clock and stack of
    its own moment, and the first exception ends the expression. *)
Fixpoint chain_calls (calls : list (Call * Env)) (self : Expect.t)
    : Expect.Outcome :=
  match calls with
  | [] => Expect.Return self
  | (c, env) :: rest =>
      Expect.bind
        (run jsonpath_find re_match load_schema validate c env self)
        (chain_calls rest)
  end.

End Chaining.

(** Records that all passed. *)
Definition all_passed (records : list Check) : Prop :=
  Forall (fun c => passed c = true) records.

(** What one call adds to the records of the chain. *)
Definition step_records (out : Expect.Outcome) (added : list Check) : Prop :=
  match out with
  | Expect.Return _ => all_passed added
  | Expect.Raise (ExpectError _ carried _ _) _ =>
      exists check, carried = [check] /\ added = [check]
                    /\ passed check = false
  | Expect.Raise _ _ => added = []
  end.

(** A navigation call: one that only selects the cursor. *)
Definition is_navigation (c : Call) : bool :=
  match c with
  | CallStatus code => negb (PyData.is_not_none code)
  | CallBody _ | CallHeader _ | CallTime => true
  | CallPredicate _ => false
  end.

(** ** [conftest.py] *)

Module Conftest.
Import Py.

(** [s[n:]]: what follows the first [n] code points. *)
Fixpoint skip_str (n : nat) (s : string) : string :=
  match s with
  | EmptyString => ""
  | String c rest =>
      if is_continuation c then skip_str n rest
      else match n with
           | O => s
           | S k => skip_str k rest
           end
  end.

(** [s.find(sub)]: the index, in code points, of the first occurrence of
    [sub]; [None] stands for [-1]. *)
Fixpoint find_str (sub s : string) : option nat :=
  if String.prefix sub s then Some O
  else match s with
       | EmptyString => None
       | String c rest =>
           match find_str sub rest with
           | Some i => Some (if is_continuation c then i else S i)
           | None => None
           end
       end.

(** What the hook reads of the test node: [node.name] and
    [node.path.name]. *)
Record Node : Type := {
  name : string;
  path_name : string
}.

Definition banner : string := "🔴 TEST ASSERTION FAILED".

(** The block the hook builds from the node and the line of the innermost
    traceback entry. *)
Definition location_header (node : Node) (lineno : Z) : string :=
  nl ++ "📋 Test Location:" ++ nl ++
  "   • File: " ++ path_name node ++ nl ++
  "   • Test: " ++ name node ++ nl ++
  "   • Line: " ++ str_int lineno ++ nl ++ nl.

(** [pytest_exception_interact(node, call, report)].  [value] is
    [call.excinfo.value], [lineno] is [call.excinfo.traceback[-1].lineno].
    The result is the text assigned to [report.longrepr]; [None] when the
    hook leaves the report alone. *)
Definition pytest_exception_interact (node : Node) (value : Exn)
    (lineno : Z) : option string :=
  match value with
  | ExpectError _ _ _ report =>
      let error_message := report in
      Some
        (if negb (is_substring "Test Information:" error_message) then
           match find_str banner error_message with
           | Some error_start =>
               prefix_str error_start error_message ++
               banner ++ nl ++
               repeat_str "━" 100 ++ nl ++
               location_header node lineno ++
               skip_str (error_start + len_str (banner ++ nl) + 101)
                        error_message
           | None => error_message
           end
         else error_message)
  | _ => None
  end.

End Conftest.

(** ** More sample inputs *)

Module Fixture.

Definition node : Conftest.Node :=
  {| Conftest.name := "test_users"; Conftest.path_name := "test_api.py" |}.


(** A chain whose cursor is a dictionary with the single key [a]. *)
Definition chain_on_dict : Expect.t :=
  Expect.set_current_value Sample.chain_on_status (VDict [("a", VInt 1)]).

(** A path evaluation with two matches, [1] and [2], in that order. *)
Definition finds_two (path : string) (document : PyVal)
    : option (list PyVal) := Some [VInt 1; VInt 2].

(** A chain whose cursor is a text. *)
Definition chain_on_text : Expect.t :=
  Expect.set_current_value Sample.chain_on_status (VStr "not found").

End Fixture.

(** * Properties of the chain *)

Import Py PyData Report.

(** ** [_add_check] *)

Lemma add_check_passed (env : Env) (self : Expect.t) (message : string)
    (actual expected : PyVal) :
  Expect._add_check env self true message actual expected =
  Expect.Return
    (Expect.append_check self
       (Build_Check true message actual expected
                    (Expect.context self) (now env))).
Proof. reflexivity. Qed.

Lemma add_check_failed (env : Env) (self : Expect.t) (message : string)
    (actual expected : PyVal) :
  let check := Build_Check false message actual expected
                           (Expect.context self) (now env) in
  Expect._add_check env self false message actual expected =
  Expect.Raise
    (new_ExpectError (frames env) "Assertion failed" [check]
                     (Some (Expect.response self)))
    (Expect.append_check self check).
Proof. reflexivity. Qed.

Lemma add_check_response (env : Env) (self : Expect.t) (passed : bool)
    (message : string) (actual expected : PyVal) :
  Expect.response
    (Expect.final (Expect._add_check env self passed message actual expected))
  = Expect.response self.
Proof. destruct passed; reflexivity. Qed.

(** ** [body] *)

(** C1.  [body()] without a path on a response that carries no JSON
    ([json_data] is [None]) raises nothing: it returns the chain with the
    cursor set to that [None].  The guard that raises
    [ValueError("Response has no JSON data")] sits in the branch taken when
    a path is given. *)
Theorem body_without_path_accepts_absent_json :
  forall jsonpath_find,
    Expect.body jsonpath_find
                (Expect.init Sample.response_without_json None) None
    = Expect.Return
        (Expect.set_current_value
           (Expect.init Sample.response_without_json None) VNone).
Proof. intros jsonpath_find. reflexivity. Qed.

(** C10.  With a path given, a response whose decoded body is falsy
    (absent, or present and empty such as an empty object or an empty list)
    makes [body] raise [ValueError("Response has no JSON data")] whatever the
    path evaluation would do, so before the path is evaluated; without a
    path the same response raises nothing and the cursor becomes that
    body. *)
Theorem body_guard_only_with_path :
  forall jsonpath_find (self : Expect.t) (path : string),
    path <> "" ->
    py_bool (json_data (Expect.response self)) = false ->
    Expect.body jsonpath_find self (Some path)
      = Expect.Raise (ValueError "Response has no JSON data") self
    /\ Expect.body jsonpath_find self None
      = Expect.Return
          (Expect.set_current_value self (json_data (Expect.response self))).
Proof.
  intros jsonpath_find self path Hpath Hfalsy.
  split; [| reflexivity].
  unfold Expect.body, Expect.path_given.
  destruct (String.eqb_spec path "") as [Heq | _]; [contradiction |].
  cbn. rewrite Hfalsy. reflexivity.
Qed.

Lemma body_guard_only_with_path_witness :
  (Expect.body Sample.always_raises
               (Expect.init Sample.response_empty_object None) (Some "$.a")
     = Expect.Raise (ValueError "Response has no JSON data")
                    (Expect.init Sample.response_empty_object None))
  /\ Expect.body Sample.always_raises
                 (Expect.init Sample.response_empty_object None) None
     = Expect.Return
         (Expect.set_current_value
            (Expect.init Sample.response_empty_object None) (VDict [])).
Proof.
  apply (@body_guard_only_with_path Sample.always_raises
           (Expect.init Sample.response_empty_object None) "$.a").
  - discriminate.
  - reflexivity.
Defined.

(** ** [equals] *)

(** C2.  [equals] passes exactly when the cursor and the argument have
    the same text under [str]; the types of the two play no part.  To pass
    is to return the chain and raise nothing, and the chain returned holds
    one more record than before, the passing record of this comparison, at
    the end of its records; the cursor and the response are what they
    were. *)
Theorem equals_passes_iff_same_text :
  forall (env : Env) (self : Expect.t) (expected : PyVal),
    ((exists self', Expect.equals env self expected = Expect.Return self')
     <-> py_str (Expect._current_value self) = py_str expected)
    /\ (forall self',
          Expect.equals env self expected = Expect.Return self' ->
          Expect.checks self'
          = (Expect.checks self ++
             [Build_Check true "equality check"
                          (Expect._current_value self) expected
                          (Expect.context self) (now env)])%list
          /\ Expect._current_value self' = Expect._current_value self
          /\ Expect.response self' = Expect.response self).
Proof.
  intros env self expected. unfold Expect.equals.
  destruct (String.eqb_spec (py_str (Expect._current_value self))
                            (py_str expected)) as [Heq | Hneq]; cbn.
  - split.
    + split; [intros _; exact Heq | intros _; eexists; reflexivity].
    + intros self' Hret. injection Hret as <-. repeat split.
  - split.
    + split; [intros [self' Hret]; discriminate Hret | contradiction].
    + intros self' Hret. discriminate Hret.
Qed.

(** The cursor [200], a number, passes [equals("200")], and the chain
    returned holds the new record after the one it held. *)
Lemma equals_passes_iff_same_text_witness :
  exists self',
    Expect.equals Sample.env Sample.chain_on_status (VStr "200")
    = Expect.Return self'
    /\ Expect.checks self'
       = [ Sample.passing_check;
           Build_Check true "equality check" (VInt 200) (VStr "200")
                       (Some "users endpoint") Sample.clock ].
Proof.
  destruct (proj2 (proj1 (equals_passes_iff_same_text
                            Sample.env Sample.chain_on_status (VStr "200")))
                  eq_refl) as [self' Hret].
  exists self'. split; [exact Hret |].
  exact (proj1 (proj2 (equals_passes_iff_same_text
                         Sample.env Sample.chain_on_status (VStr "200"))
                      self' Hret)).
Defined.

(** C9.  [equals] either returns the chain or raises [ExpectError]; it
    raises [AssertionError] on no input, the [raise AssertionError] that
    follows the call of [_add_check] being out of reach. *)
Theorem equals_never_raises_AssertionError :
  forall (env : Env) (self : Expect.t) (expected : PyVal),
    ((exists self', Expect.equals env self expected = Expect.Return self')
     \/ (exists message checks response report self',
           Expect.equals env self expected
           = Expect.Raise (ExpectError message checks response report) self'))
    /\ (forall msg self',
          Expect.equals env self expected
          <> Expect.Raise (AssertionError msg) self').
Proof.
  intros env self expected. unfold Expect.equals.
  destruct (String.eqb (py_str (Expect._current_value self))
                       (py_str expected)); cbn.
  - split; [left; eexists; reflexivity | discriminate].
  - split; [right; do 5 eexists; reflexivity | discriminate].
Qed.

(** ** [is_json] *)

(** C3, as the specification words it, fails: on a response whose body
    decodes to the empty object [is_json] passes, although that body is not
    truthy. *)
Lemma is_json_not_iff_truthy_body :
  ~ (forall (env : Env) (self : Expect.t),
       (exists self', Expect.is_json env self = Expect.Return self')
       <-> py_bool (json_data (Expect.response self)) = true).
Proof.
  intros claim.
  destruct (claim Sample.env (Expect.init Sample.response_empty_object None))
    as [passes _].
  assert (truthy : py_bool (json_data Sample.response_empty_object) = true).
  { apply passes. eexists. reflexivity. }
  discriminate truthy.
Qed.

(** C3, amended.  [is_json] passes exactly when the decoded body is
    present, that is when it is not [None]; an empty body such as the empty
    object is present, so the predicate passes on it.  Passing appends one
    passing record to the chain; on an absent body the predicate raises
    [ExpectError] with its failing record. *)
Theorem is_json_passes_iff_body_present :
  forall (env : Env) (self : Expect.t),
    ((exists self', Expect.is_json env self = Expect.Return self')
     <-> json_data (Expect.response self) <> VNone)
    /\ (forall self',
          Expect.is_json env self = Expect.Return self' ->
          exists check,
            passed check = true
            /\ Expect.checks self' = (Expect.checks self ++ [check])%list)
    /\ (json_data (Expect.response self) = VNone ->
        exists message check response report self',
          Expect.is_json env self
          = Expect.Raise (ExpectError message [check] response report) self'
          /\ passed check = false
          /\ Expect.checks self' = (Expect.checks self ++ [check])%list).
Proof.
  intros env self. unfold Expect.is_json.
  destruct (json_data (Expect.response self)) eqn:Hbody.
  1: { cbn. split; [| split].
       - split; [intros [self' Hret]; discriminate Hret
                | intros H; now elim H].
       - intros self' Hret. discriminate Hret.
       - intros _. do 5 eexists. repeat split. }
  all: cbn; (split; [| split]);
    [ split; [intros _; discriminate | intros _; eexists; reflexivity]
    | intros self' Hret; injection Hret as <-; eexists;
      split; [| reflexivity]; reflexivity
    | intros H; discriminate H ].
Qed.

(** The empty object is present, so [is_json] passes on it. *)
Lemma is_json_passes_iff_body_present_witness :
  exists self',
    Expect.is_json Sample.env (Expect.init Sample.response_empty_object None)
    = Expect.Return self'.
Proof.
  apply (proj2 (proj1 (is_json_passes_iff_body_present Sample.env
                         (Expect.init Sample.response_empty_object None)))).
  discriminate.
Defined.

(** ** [body] with a path that matches nothing *)

(** C5.  On a response whose body decodes to the empty object, a body
    that is present, [body] with a path raises
    [ValueError("Response has no JSON data")] whatever the path evaluation
    would find, where the specification has it set the cursor to [None]
    without an error.  The guard tests the truth value of the body, not its
    presence, against its own message and against [is_json] and [body()],
    which both take the same body as JSON. *)
Theorem body_with_path_rejects_a_present_empty_body :
  forall jsonpath_find,
    Expect.body jsonpath_find
                (Expect.init Sample.response_empty_object None) (Some "$.a")
    = Expect.Raise (ValueError "Response has no JSON data")
                   (Expect.init Sample.response_empty_object None)
    /\ json_data Sample.response_empty_object <> VNone
    /\ Expect.body jsonpath_find
                   (Expect.init Sample.response_empty_object None) None
       = Expect.Return
           (Expect.set_current_value
              (Expect.init Sample.response_empty_object None) (VDict []))
    /\ exists self',
         Expect.is_json Sample.env
                        (Expect.init Sample.response_empty_object None)
         = Expect.Return self'.
Proof.
  intros jsonpath_find. split; [reflexivity |].
  split; [discriminate |]. split; [reflexivity |].
  eexists. reflexivity.
Qed.

(** So the sentence of the specification does not hold of every present
    body: the body may be present and still falsy. *)
Lemma body_unmatched_path_may_raise :
  ~ (forall jsonpath_find (env : Env) (self : Expect.t) (path : string),
       json_data (Expect.response self) <> VNone ->
       path <> "" ->
       jsonpath_find path (json_data (Expect.response self)) = Some [] ->
       exists self',
         Expect.body jsonpath_find self (Some path) = Expect.Return self').
Proof.
  intros claim.
  destruct (claim Sample.finds_nothing Sample.env
                  (Expect.init Sample.response_empty_object None) "$.a")
    as [self' Hreturn].
  - discriminate.
  - discriminate.
  - reflexivity.
  - discriminate Hreturn.
Qed.

(** On a truthy body the code does what the sentence says: a given,
    well-formed path that matches nothing makes [body] raise nothing and set
    the cursor to [None], and [equals(None)] on that chain passes. *)
Lemma body_unmatched_path_then_equals_None :
  forall jsonpath_find (env : Env) (self : Expect.t) (path : string),
    py_bool (json_data (Expect.response self)) = true ->
    path <> "" ->
    jsonpath_find path (json_data (Expect.response self)) = Some [] ->
    Expect.body jsonpath_find self (Some path)
      = Expect.Return (Expect.set_current_value self VNone)
    /\ Expect.equals env (Expect.set_current_value self VNone) VNone
      = Expect.Return
          (Expect.append_check (Expect.set_current_value self VNone)
             (Build_Check true "equality check" VNone VNone
                          (Expect.context self) (now env))).
Proof.
  intros jsonpath_find env self path Htruthy Hpath Hnone.
  split; [| reflexivity].
  unfold Expect.body, Expect.path_given.
  destruct (String.eqb_spec path "") as [Heq | _]; [contradiction |].
  cbn. rewrite Htruthy. cbn. rewrite Hnone. reflexivity.
Qed.

Lemma body_unmatched_path_then_equals_None_witness :
  Expect.body Sample.finds_nothing (Expect.init Sample.response_ok None)
              (Some "$.missing")
    = Expect.Return
        (Expect.set_current_value (Expect.init Sample.response_ok None) VNone)
  /\ Expect.equals Sample.env
       (Expect.set_current_value (Expect.init Sample.response_ok None) VNone)
       VNone
    = Expect.Return
        (Expect.append_check
           (Expect.set_current_value (Expect.init Sample.response_ok None)
                                     VNone)
           (Build_Check true "equality check" VNone VNone None Sample.clock)).
Proof.
  apply (@body_unmatched_path_then_equals_None Sample.finds_nothing Sample.env
           (Expect.init Sample.response_ok None) "$.missing").
  - reflexivity.
  - discriminate.
  - reflexivity.
Defined.

(** ** Predicates against their evaluation *)

Section PredicateFacts.

Variable re_match : string -> string -> option bool.
Variable load_schema : string -> option PyVal.
Variable validate : PyVal -> PyVal -> option ValidationResult.

Let evaluation := predicate_evaluation re_match load_schema validate.
Let run_p := run_predicate re_match load_schema validate.

Lemma missing_keys_of_dict (d : list (string * PyVal)) (keys : list string) :
  Expect.missing_keys keys (VDict d)
  = Some (filter (fun k => negb (has_key d k)) keys).
Proof.
  induction keys as [| k rest IH]; [reflexivity |].
  cbn [Expect.missing_keys py_in hashable]. rewrite IH.
  cbn [filter]. destruct (has_key d k); reflexivity.
Qed.

Lemma none_missing_iff_all_present (d : list (string * PyVal))
    (keys : list string) :
  match filter (fun k => negb (has_key d k)) keys with
  | [] => true
  | _ :: _ => false
  end = forallb (has_key d) keys.
Proof.
  induction keys as [| k rest IH]; [reflexivity |].
  cbn [filter forallb]. destruct (has_key d k); cbn; [exact IH | reflexivity].
Qed.

Lemma schema_run_evaluated (env : Env) (self : Expect.t) (schema : PyVal)
    (ev : Evaluation) :
  schema_evaluation load_schema validate (Expect._current_value self) schema
    = Some ev ->
  Expect.matches_schema load_schema validate env self schema
  = Expect._add_check env self (holds ev) (label ev) (observed ev) (against ev).
Proof.
  unfold schema_evaluation, resolved_schema, Expect.matches_schema.
  intros Hev.
  destruct (match schema with VStr r => load_schema r | _ => Some schema end)
    as [resolved |]; [| discriminate].
  destruct (validate (Expect._current_value self) resolved) as [result |];
    [| discriminate].
  injection Hev as <-. cbn.
  destruct (is_valid result); reflexivity.
Qed.

(** A predicate whose condition can be evaluated hands exactly that
    evaluation to [_add_check]. *)
Lemma run_predicate_evaluated (p : PredicateCall) (env : Env)
    (self : Expect.t) (ev : Evaluation) :
  evaluation p self = Some ev ->
  run_p p env self
  = Expect._add_check env self (holds ev) (label ev) (observed ev) (against ev).
Proof.
  unfold evaluation, run_p.
  destruct p; cbn [predicate_evaluation run_predicate]; intros Hev.
  - injection Hev as <-. cbn [holds label observed against].
    unfold Expect.equals.
    destruct (String.eqb _ _); reflexivity.
  - unfold Expect.contains.
    destruct (py_in _ _); [injection Hev as <-; reflexivity | discriminate].
  - unfold Expect.matches.
    destruct (re_match _ _); [injection Hev as <-; reflexivity | discriminate].
  - unfold Expect.less_than.
    destruct (py_order _ _ _); [injection Hev as <-; reflexivity | discriminate].
  - unfold Expect.greater_than.
    destruct (py_order _ _ _); [injection Hev as <-; reflexivity | discriminate].
  - unfold Expect.has_length.
    destruct (py_len _); [injection Hev as <-; reflexivity | discriminate].
  - injection Hev as <-. reflexivity.
  - unfold Expect.has_keys.
    destruct (Expect._current_value self) as [| | | | | d |] eqn:Hcur;
      try discriminate.
    injection Hev as <-. cbn [holds label observed against].
    rewrite missing_keys_of_dict, none_missing_iff_all_present.
    reflexivity.
  - unfold Expect.satisfies.
    destruct (predicate _); [injection Hev as <-; reflexivity | discriminate].
  - now apply schema_run_evaluated.
  - now apply schema_run_evaluated.
  - now apply schema_run_evaluated.
Qed.

(** A predicate whose condition cannot be evaluated raises something
    other than [ExpectError] and leaves the chain as it was. *)
Lemma run_predicate_not_evaluated (p : PredicateCall) (env : Env)
    (self : Expect.t) :
  evaluation p self = None ->
  exists exn,
    run_p p env self = Expect.Raise exn self /\ is_ExpectError exn = false.
Proof.
  unfold evaluation, run_p.
  destruct p; cbn [predicate_evaluation run_predicate]; intros Hev;
    try discriminate Hev.
  - unfold Expect.contains.
    destruct (py_in _ _); [discriminate | eexists; split; reflexivity].
  - unfold Expect.matches.
    destruct (re_match _ _); [discriminate | eexists; split; reflexivity].
  - unfold Expect.less_than.
    destruct (py_order _ _ _); [discriminate | eexists; split; reflexivity].
  - unfold Expect.greater_than.
    destruct (py_order _ _ _); [discriminate | eexists; split; reflexivity].
  - unfold Expect.has_length.
    destruct (py_len _); [discriminate | eexists; split; reflexivity].
  - unfold Expect.has_keys.
    destruct (Expect.missing_keys keys (Expect._current_value self));
      [| eexists; split; reflexivity].
    destruct (Expect._current_value self);
      try discriminate Hev; eexists; split; reflexivity.
  - unfold Expect.satisfies.
    destruct (predicate _); [discriminate | eexists; split; reflexivity].
  - revert Hev. unfold schema_evaluation, resolved_schema, Expect.matches_schema.
    destruct (match schema with VStr r => load_schema r | _ => Some schema end)
      as [resolved |]; [| intros _; eexists; split; reflexivity].
    destruct (validate _ resolved);
      [discriminate | intros _; eexists; split; reflexivity].
  - revert Hev.
    unfold schema_evaluation, resolved_schema, Expect.has_type,
      Expect.matches_schema.
    destruct (validate _ _);
      [discriminate | intros _; eexists; split; reflexivity].
  - revert Hev.
    unfold schema_evaluation, resolved_schema, Expect.has_array_items,
      Expect.matches_schema.
    destruct (validate _ _);
      [discriminate | intros _; eexists; split; reflexivity].
Qed.

Lemma run_predicate_response (p : PredicateCall) (env : Env)
    (self : Expect.t) :
  Expect.response (Expect.final (run_p p env self)) = Expect.response self.
Proof.
  destruct (evaluation p self) as [ev |] eqn:Hev.
  - rewrite (run_predicate_evaluated p env self Hev).
    apply add_check_response.
  - destruct (run_predicate_not_evaluated p env self Hev) as [exn [-> _]].
    reflexivity.
Qed.

End PredicateFacts.

(** ** The assertion failure signal *)



(** ** Cursors of the wrong shape *)

(** C6.  A cursor without a size under [has_length], without a membership
    test under [contains], or without an order with the argument under
    [less_than] and [greater_than] makes the call raise [TypeError], the
    error of a call that cannot proceed, which is not the assertion failure
    signal; the chain is left as it was, so no record is appended. *)
Theorem shape_violation_raises_without_record :
  forall re_match load_schema validate
         (p : PredicateCall) (env : Env) (self : Expect.t),
    shape_violation p (Expect._current_value self) ->
    run_predicate re_match load_schema validate p env self
      = Expect.Raise TypeError self
    /\ is_ExpectError TypeError = false
    /\ Expect.checks
         (Expect.final (run_predicate re_match load_schema validate p env self))
       = Expect.checks self.
Proof.
  intros re_match load_schema validate p env self Hshape.
  assert (Hraise : run_predicate re_match load_schema validate p env self
                   = Expect.Raise TypeError self).
  { inversion Hshape as [c n Hs Hp Hc | c x Hs Hp Hc
                         | c v Ho Hp Hc | c v Ho Hp Hc];
      subst; cbn [run_predicate].
    - unfold Expect.has_length.
      destruct (Expect._current_value self); try discriminate Hs; reflexivity.
    - unfold Expect.contains.
      destruct (Expect._current_value self); try discriminate Hs; reflexivity.
    - unfold Expect.less_than. rewrite Ho. reflexivity.
    - unfold Expect.greater_than. rewrite Ho. reflexivity. }
  rewrite Hraise. repeat split.
Qed.

(** [has_length(3)] on the status code [200], a number. *)
Lemma shape_violation_raises_without_record_witness :
  run_predicate Sample.no_regex Sample.no_loader Sample.no_validator
                (CallHasLength (VInt 3)) Sample.env Sample.chain_on_status
    = Expect.Raise TypeError Sample.chain_on_status
  /\ is_ExpectError TypeError = false
  /\ Expect.checks
       (Expect.final
          (run_predicate Sample.no_regex Sample.no_loader Sample.no_validator
                         (CallHasLength (VInt 3)) Sample.env
                         Sample.chain_on_status))
     = [Sample.passing_check].
Proof.
  apply (@shape_violation_raises_without_record
           Sample.no_regex Sample.no_loader Sample.no_validator
           (CallHasLength (VInt 3)) Sample.env Sample.chain_on_status).
  apply not_sized. reflexivity.
Defined.

(** ** The formatter *)

(** The report names the line the test is at: the stack is one of the
    inputs of the formatter. *)
Remark format_message_reads_the_test_location :
  format_message (frames Sample.env) [Sample.failing_check]
                 (Some Sample.response_ok)
  <> format_message (frames Sample.env_next_line) [Sample.failing_check]
                    (Some Sample.response_ok).
Proof. intros H. vm_compute in H. discriminate H. Qed.

(** ** The response *)

(** C8.  No call on a chain changes the response the chain refers to: after
    any navigation or predicate method, whether it returns or raises, the
    chain holds the response it held before.  The methods assign to
    attributes of the chain and append to its own list of records only; a
    caller's predicate is taken to be a function of the cursor. *)
Theorem no_call_changes_the_response :
  forall jsonpath_find re_match load_schema validate
         (c : Call) (env : Env) (self : Expect.t),
    Expect.response
      (Expect.final (run jsonpath_find re_match load_schema validate c env self))
    = Expect.response self.
Proof.
  intros jsonpath_find re_match load_schema validate c env self.
  destruct c as [code | path | name | | p]; cbn [run].
  - unfold Expect.status.
    destruct (is_not_none code); [| reflexivity].
    unfold Expect.equals.
    destruct (String.eqb _ _); reflexivity.
  - unfold Expect.body.
    destruct (Expect.path_given path); [| reflexivity].
    destruct (negb _); [reflexivity |].
    destruct (jsonpath_find _ _); reflexivity.
  - reflexivity.
  - reflexivity.
  - apply run_predicate_response.
Qed.

(** ** The scenarios of the specification *)

(** A response with status 404: [status()] then [equals(200)] raises the
    signal, and the report shows the status, the expected and the received
    value. *)
Example scenario_not_found :
  exists message checks response report self',
    Expect.bind (Expect.status Sample.env
                   (Expect.init Sample.response_not_found None) VNone)
                (fun self => Expect.equals Sample.env self (VInt 200))
    = Expect.Raise (ExpectError message checks response report) self'
    /\ is_substring "Status: 404" report = true
    /\ is_substring "Expected: 200" report = true
    /\ is_substring "Received: 404" report = true.
Proof. do 5 eexists. repeat split; vm_compute; reflexivity. Qed.

(** [body("$.users")] then [has_length(2)] passes, for a path evaluation
    that finds the list of users at that path. *)
Example scenario_users :
  forall jsonpath_find,
    jsonpath_find "$.users" Sample.users
    = Some [VList [VDict [("id", VInt 1)]; VDict [("id", VInt 2)]]] ->
    exists self',
      Expect.bind (Expect.body jsonpath_find
                     (Expect.init Sample.response_ok None) (Some "$.users"))
                  (fun self => Expect.has_length Sample.env self (VInt 2))
      = Expect.Return self'
      /\ List.length (Expect.checks self') = 1%nat.
Proof.
  intros jsonpath_find Hfind. unfold Expect.body. cbn.
  rewrite Hfind. cbn. eexists. split; reflexivity.
Qed.

(** * Further properties *)

(** ** Outcomes of a predicate *)

(** X1.  A predicate that evaluates to true returns the chain with exactly
    one record appended, the passing record of this evaluation, and leaves
    the cursor where it was: the chain can go on. *)
Theorem passing_predicate_appends_one_record :
  forall re_match load_schema validate
         (p : PredicateCall) (env : Env) (self : Expect.t) (ev : Evaluation),
    predicate_evaluation re_match load_schema validate p self = Some ev ->
    holds ev = true ->
    let check := record_of ev env self in
    run_predicate re_match load_schema validate p env self
      = Expect.Return (Expect.append_check self check)
    /\ passed check = true
    /\ Expect.checks (Expect.append_check self check)
       = (Expect.checks self ++ [check])%list
    /\ Expect._current_value (Expect.append_check self check)
       = Expect._current_value self.
Proof.
  intros re_match load_schema validate p env self ev Hev Htrue check.
  rewrite (run_predicate_evaluated _ _ _ p env self Hev).
  subst check. unfold record_of. rewrite Htrue.
  repeat split.
Qed.

(** [has_length(2)] on the list of two users. *)
Lemma passing_predicate_appends_one_record_witness :
  let check :=
    Build_Check true "length check" (VInt 2) (VInt 2)
                (Some "users endpoint") Sample.clock in
  run_predicate Sample.no_regex Sample.no_loader Sample.no_validator
                (CallHasLength (VInt 2)) Sample.env Sample.chain_on_users
    = Expect.Return (Expect.append_check Sample.chain_on_users check)
  /\ passed check = true
  /\ Expect.checks (Expect.append_check Sample.chain_on_users check)
     = [Sample.passing_check; check]
  /\ Expect._current_value (Expect.append_check Sample.chain_on_users check)
     = VList [VDict [("id", VInt 1)]; VDict [("id", VInt 2)]].
Proof.
  apply (@passing_predicate_appends_one_record
           Sample.no_regex Sample.no_loader Sample.no_validator
           (CallHasLength (VInt 2)) Sample.env Sample.chain_on_users
           {| holds := true; label := "length check";
              observed := VInt 2; against := VInt 2 |}).
  - reflexivity.
  - reflexivity.
Defined.


(** ** Navigation *)

(** X3.  A navigation call ([status()] without a code, [body], [header],
    [time]) changes nothing but the cursor: it either returns the chain with
    a new cursor, or raises [ValueError] and leaves the chain as it was.  It
    appends no record and never raises [ExpectError]. *)
Theorem navigation_only_moves_the_cursor :
  forall jsonpath_find re_match load_schema validate
         (c : Call) (env : Env) (self : Expect.t),
    is_navigation c = true ->
    let out := run jsonpath_find re_match load_schema validate c env self in
    (exists v, out = Expect.Return (Expect.set_current_value self v))
    \/ (exists msg, out = Expect.Raise (ValueError msg) self).
Proof.
  intros jsonpath_find re_match load_schema validate c env self Hnav out.
  subst out.
  destruct c as [code | path | name | | p]; cbn [run]; cbn in Hnav.
  - unfold Expect.status. destruct (is_not_none code); [discriminate |].
    left. eexists. reflexivity.
  - unfold Expect.body.
    destruct (Expect.path_given path); [| left; eexists; reflexivity].
    destruct (negb _); [right; eexists; reflexivity |].
    destruct (jsonpath_find _ _);
      [left; eexists; reflexivity | right; eexists; reflexivity].
  - left. eexists. reflexivity.
  - left. eexists. reflexivity.
  - discriminate.
Qed.

(** [header("Content-Type")] on the sample response. *)
Lemma navigation_only_moves_the_cursor_witness :
  (exists v,
     run Sample.finds_nothing Sample.no_regex Sample.no_loader
         Sample.no_validator (CallHeader "Content-Type") Sample.env
         Sample.chain_on_status
     = Expect.Return (Expect.set_current_value Sample.chain_on_status v))
  \/ (exists msg,
        run Sample.finds_nothing Sample.no_regex Sample.no_loader
            Sample.no_validator (CallHeader "Content-Type") Sample.env
            Sample.chain_on_status
        = Expect.Raise (ValueError msg) Sample.chain_on_status).
Proof.
  apply (@navigation_only_moves_the_cursor
           Sample.finds_nothing Sample.no_regex Sample.no_loader
           Sample.no_validator (CallHeader "Content-Type") Sample.env
           Sample.chain_on_status).
  reflexivity.
Defined.

(** ** Records along a chain of calls *)

Section ChainFacts.

Variable jsonpath_find : string -> PyVal -> option (list PyVal).
Variable re_match : string -> string -> option bool.
Variable load_schema : string -> option PyVal.
Variable validate : PyVal -> PyVal -> option ValidationResult.

Let run_c := run jsonpath_find re_match load_schema validate.
Let chain := chain_calls jsonpath_find re_match load_schema validate.

Lemma add_check_step (env : Env) (self : Expect.t) (ok : bool)
    (message : string) (actual expected : PyVal) :
  exists added,
    Expect.checks
      (Expect.final (Expect._add_check env self ok message actual expected))
    = (Expect.checks self ++ added)%list
    /\ (List.length added <= 1)%nat
    /\ step_records (Expect._add_check env self ok message actual expected)
                    added.
Proof.
  destruct ok; cbn.
  - eexists. split; [reflexivity |]. split; [cbn; lia |].
    constructor; [reflexivity | constructor].
  - eexists. split; [reflexivity |]. split; [cbn; lia |].
    eexists. repeat split.
Qed.

Lemma unchanged_step (out : Expect.Outcome) (self : Expect.t) :
  Expect.checks (Expect.final out) = Expect.checks self ->
  (match out with
   | Expect.Raise exn _ => is_ExpectError exn = false
   | Expect.Return _ => True
   end) ->
  exists added,
    Expect.checks (Expect.final out) = (Expect.checks self ++ added)%list
    /\ (List.length added <= 1)%nat
    /\ step_records out added.
Proof.
  intros Hsame Hexn. exists []. rewrite app_nil_r.
  split; [exact Hsame |]. split; [cbn; lia |].
  destruct out as [self' | exn self']; cbn.
  - constructor.
  - destruct exn; try reflexivity. discriminate Hexn.
Qed.

(** One call appends at most one record; the record is a failing one
    exactly when the call raises [ExpectError], which then carries it. *)
Lemma run_step (c : Call) (env : Env) (self : Expect.t) :
  exists added,
    Expect.checks (Expect.final (run_c c env self))
    = (Expect.checks self ++ added)%list
    /\ (List.length added <= 1)%nat
    /\ step_records (run_c c env self) added.
Proof.
  unfold run_c.
  destruct c as [code | path | name | | p]; cbn [run].
  - unfold Expect.status. destruct (is_not_none code).
    + unfold Expect.equals. destruct (String.eqb _ _); cbn.
      * eexists. split; [reflexivity |]. split; [cbn; lia |].
        constructor; [reflexivity | constructor].
      * eexists. split; [reflexivity |]. split; [cbn; lia |].
        eexists. repeat split.
    + apply unchanged_step; [reflexivity | exact I].
  - unfold Expect.body.
    destruct (Expect.path_given path);
      [| apply unchanged_step; [reflexivity | exact I]].
    destruct (negb _); [apply unchanged_step; reflexivity |].
    destruct (jsonpath_find _ _); apply unchanged_step; try reflexivity;
      try exact I.
  - apply unchanged_step; [reflexivity | exact I].
  - apply unchanged_step; [reflexivity | exact I].
  - destruct (predicate_evaluation re_match load_schema validate p self)
      as [ev |] eqn:Hev.
    + rewrite (run_predicate_evaluated _ _ _ p env self Hev).
      apply add_check_step.
    + destruct (run_predicate_not_evaluated _ _ _ p env self Hev)
        as [exn [-> Hexn]].
      apply unchanged_step; [reflexivity | exact Hexn].
Qed.

End ChainFacts.

(** X4.  A chain is fail-fast.  Started from records that all passed, a
    fluent expression of any calls keeps that invariant for as long as it
    returns; if it ends with [ExpectError], the signal carries one record,
    which is the last record of the chain and its only failing one.  Each
    call adds at most one record. *)
Theorem chain_is_fail_fast :
  forall jsonpath_find re_match load_schema validate
         (calls : list (Call * Env)) (self : Expect.t),
    all_passed (Expect.checks self) ->
    match chain_calls jsonpath_find re_match load_schema validate calls self
    with
    | Expect.Return self' => all_passed (Expect.checks self')
    | Expect.Raise (ExpectError _ carried _ _) self' =>
        exists before check,
          Expect.checks self' = (before ++ [check])%list
          /\ all_passed before
          /\ passed check = false
          /\ carried = [check]
    | Expect.Raise _ self' => all_passed (Expect.checks self')
    end
    /\ (List.length
          (Expect.checks
             (Expect.final
                (chain_calls jsonpath_find re_match load_schema validate
                             calls self)))
        <= List.length (Expect.checks self) + List.length calls)%nat.
Proof.
  intros jsonpath_find re_match load_schema validate calls.
  induction calls as [| [c env] rest IH]; intros self Hpassed.
  - cbn. split; [exact Hpassed | lia].
  - cbn [chain_calls].
    destruct (run_step jsonpath_find re_match load_schema validate c env self)
      as [added [Hchecks [Hlen Hstep]]].
    destruct (run jsonpath_find re_match load_schema validate c env self)
      as [self1 | exn self1]; cbn [Expect.bind Expect.final] in *.
    + assert (Hpassed1 : all_passed (Expect.checks self1)).
      { rewrite Hchecks. apply Forall_app. split; assumption. }
      destruct (IH self1 Hpassed1) as [Hshape Hbound].
      split; [exact Hshape |].
      rewrite Hchecks, length_app in Hbound. cbn [List.length]. lia.
    + split.
      * destruct exn; cbn in Hstep;
          try (subst added; rewrite app_nil_r in Hchecks;
               rewrite Hchecks; exact Hpassed).
        destruct Hstep as [check [-> [-> Hfailed]]].
        exists (Expect.checks self), check. repeat split; assumption.
      * rewrite Hchecks, length_app. cbn [List.length]. lia.
Qed.

(** [status()], [equals(200)], [body("$.missing")], [equals("x")] on a
    fresh chain: the last call fails, after one passing record. *)
Lemma chain_is_fail_fast_witness :
  match chain_calls Sample.finds_nothing Sample.no_regex Sample.no_loader
                    Sample.no_validator
                    [ (CallStatus VNone, Sample.env);
                      (CallPredicate (CallEquals (VInt 200)), Sample.env);
                      (CallBody (Some "$.missing"), Sample.env);
                      (CallPredicate (CallEquals (VStr "x")), Sample.env) ]
                    (Expect.init Sample.response_ok None)
  with
  | Expect.Return self' => all_passed (Expect.checks self')
  | Expect.Raise (ExpectError _ carried _ _) self' =>
      exists before check,
        Expect.checks self' = (before ++ [check])%list
        /\ all_passed before
        /\ passed check = false
        /\ carried = [check]
  | Expect.Raise _ self' => all_passed (Expect.checks self')
  end
  /\ (List.length
        (Expect.checks
           (Expect.final
              (chain_calls Sample.finds_nothing Sample.no_regex
                 Sample.no_loader Sample.no_validator
                 [ (CallStatus VNone, Sample.env);
                   (CallPredicate (CallEquals (VInt 200)), Sample.env);
                   (CallBody (Some "$.missing"), Sample.env);
                   (CallPredicate (CallEquals (VStr "x")), Sample.env) ]
                 (Expect.init Sample.response_ok None))))
      <= List.length (Expect.checks (Expect.init Sample.response_ok None)) + 4)%nat.
Proof.
  apply (@chain_is_fail_fast Sample.finds_nothing Sample.no_regex
           Sample.no_loader Sample.no_validator
           [ (CallStatus VNone, Sample.env);
             (CallPredicate (CallEquals (VInt 200)), Sample.env);
             (CallBody (Some "$.missing"), Sample.env);
             (CallPredicate (CallEquals (VStr "x")), Sample.env) ]
           (Expect.init Sample.response_ok None)).
  constructor.
Defined.

(** ** Text *)

Lemma prefix_iff_app (sub s : string) :
  String.prefix sub s = true <-> exists post, s = sub ++ post.
Proof.
  revert s. induction sub as [| a sub IH]; intros s.
  - destruct s; cbn; split; intros _; try reflexivity; eexists; reflexivity.
  - destruct s as [| b s]; cbn.
    + split; [discriminate | intros [post H]; discriminate H].
    + destruct (ascii_dec a b) as [-> | Hneq].
      * rewrite IH. split; intros [post H].
        -- exists post. now rewrite H.
        -- exists post. now injection H.
      * split; [discriminate |].
        intros [post H]. injection H as H _. now subst.
Qed.

(** [is_substring] finds exactly the occurrences of a text in another. *)
Lemma is_substring_iff (sub s : string) :
  is_substring sub s = true <-> exists pre post, s = pre ++ sub ++ post.
Proof.
  induction s as [| c s IH].
  - change (is_substring sub "")
      with (if String.prefix sub "" then true else false).
    destruct (String.prefix sub "") eqn:Hp.
    + apply prefix_iff_app in Hp. destruct Hp as [post Hp].
      split; [intros _ | reflexivity]. exists "", post. exact Hp.
    + split; [discriminate |]. intros [pre [post H]].
      destruct pre; [| discriminate H]. cbn in H.
      assert (Hp' : String.prefix sub "" = true)
        by (apply prefix_iff_app; now exists post).
      congruence.
  - change (is_substring sub (String c s))
      with (if String.prefix sub (String c s) then true
            else is_substring sub s).
    destruct (String.prefix sub (String c s)) eqn:Hp.
    + apply prefix_iff_app in Hp. destruct Hp as [post Hp].
      split; [intros _ | reflexivity]. exists "", post. exact Hp.
    + rewrite IH. split; intros [pre [post H]].
      * exists (String c pre), post. cbn. now rewrite H.
      * destruct pre as [| c' pre].
        -- cbn in H.
           assert (Hp' : String.prefix sub (String c s) = true)
             by (apply prefix_iff_app; now exists post).
           congruence.
        -- cbn in H. injection H as _ H. now exists pre, post.
Qed.

Lemma to_int_not_nil (z : Z) : Z.to_int z <> Decimal.Pos Decimal.Nil
                               /\ Z.to_int z <> Decimal.Neg Decimal.Nil.
Proof.
  destruct z as [| p | p]; cbn; split; try discriminate;
    intros H; injection H as H;
    now apply DecimalPos.Unsigned.to_uint_nonnil in H.
Qed.

(** The decimal text of an integer determines the integer. *)
Lemma str_int_inj (a b : Z) : str_int a = str_int b -> a = b.
Proof.
  unfold str_int. intros H.
  apply DecimalZ.to_int_inj.
  destruct (to_int_not_nil a) as [Ha1 Ha2].
  destruct (to_int_not_nil b) as [Hb1 Hb2].
  pose proof (NilZero.isi (Z.to_int a) Ha1 Ha2) as Ia.
  pose proof (NilZero.isi (Z.to_int b) Hb1 Hb2) as Ib.
  rewrite H in Ia. rewrite Ia in Ib. now injection Ib.
Qed.

(** ** [equals] on numbers *)

(** X5.  Between two integers the comparison by text is exact: [equals]
    passes on an integer cursor against an integer argument exactly when
    the two are the same number.  The integers are those [str] turns into
    text: Python refuses, with [ValueError], to print an integer of more
    than 4300 digits. *)
Theorem equals_on_integers_is_exact :
  forall (env : Env) (self : Expect.t) (a b : Z),
    Z.abs a < 10 ^ 4300 ->
    Z.abs b < 10 ^ 4300 ->
    Expect._current_value self = VInt a ->
    ((exists self',
        Expect.equals env self (VInt b) = Expect.Return self'
        /\ Expect.checks self'
           = (Expect.checks self ++
              [Build_Check true "equality check" (VInt a) (VInt b)
                           (Expect.context self) (now env)])%list)
     <-> a = b).
Proof.
  intros env self a b _ _ Hcur. unfold Expect.equals. rewrite Hcur.
  cbn [py_str py_repr].
  destruct (String.eqb_spec (str_int a) (str_int b)) as [Heq | Hneq]; cbn.
  - split; [intros _; now apply str_int_inj |].
    intros _. eexists. split; reflexivity.
  - split; [intros [self' [Hret _]]; discriminate Hret
           | intros ->; contradiction].
Qed.

Lemma equals_on_integers_is_exact_witness :
  exists self',
    Expect.equals Sample.env Sample.chain_on_status (VInt 200)
    = Expect.Return self'
    /\ Expect.checks self'
       = [ Sample.passing_check;
           Build_Check true "equality check" (VInt 200) (VInt 200)
                       (Some "users endpoint") Sample.clock ].
Proof.
  apply (proj2 (@equals_on_integers_is_exact Sample.env Sample.chain_on_status
                  200 200 eq_refl eq_refl eq_refl)).
  reflexivity.
Defined.

(** ** [contains] on text *)

(** X6.  On a text cursor [contains] is a substring test: with a text
    argument it passes exactly when the argument occurs somewhere in the
    cursor, and with an argument that is not text it raises [TypeError] and
    records nothing. *)
Theorem contains_on_text_is_substring :
  forall (env : Env) (self : Expect.t) (s : string) (expected : PyVal),
    Expect._current_value self = VStr s ->
    match expected with
    | VStr sub =>
        Expect.contains env self expected
          = Expect.Return
              (Expect.append_check self
                 (Build_Check true "contains check" (VStr s) expected
                              (Expect.context self) (now env)))
        <-> exists pre post, s = pre ++ sub ++ post
    | _ => Expect.contains env self expected = Expect.Raise TypeError self
    end.
Proof.
  intros env self s expected Hcur. unfold Expect.contains. rewrite Hcur.
  destruct expected as [| b | z | sub | l | d | n]; try reflexivity.
  cbn [py_in]. rewrite <- is_substring_iff.
  destruct (is_substring sub s); cbn.
  - split; reflexivity.
  - split; discriminate.
Qed.

Lemma contains_on_text_is_substring_witness :
  Expect.contains Sample.env Fixture.chain_on_text (VStr "found")
    = Expect.Return
        (Expect.append_check Fixture.chain_on_text
           (Build_Check true "contains check" (VStr "not found")
                        (VStr "found") (Some "users endpoint") Sample.clock)).
Proof.
  apply (proj2 (@contains_on_text_is_substring Sample.env Fixture.chain_on_text
                  "not found" (VStr "found") eq_refl)).
  exists "not ", "". reflexivity.
Defined.

(** ** [has_keys] *)

(** X7.  On a dictionary cursor [has_keys] passes exactly when every
    requested name is a key of the dictionary; either way the record it
    leaves reports the set of the keys present as the observed value and
    the set of the requested names as the expected one. *)
Theorem has_keys_on_dictionary :
  forall (env : Env) (self : Expect.t) (d : list (string * PyVal))
         (keys : list string),
    Expect._current_value self = VDict d ->
    let record ok :=
      Build_Check ok "keys presence check"
                  (VSet (dedup (map fst d))) (VSet (dedup keys))
                  (Expect.context self) (now env) in
    (Expect.has_keys env self keys
       = Expect.Return (Expect.append_check self (record true))
     <-> forall k, In k keys -> exists v, dict_get k d = Some v)
    /\ (Expect.has_keys env self keys
          = Expect.Return (Expect.append_check self (record true))
        \/ exists message response report,
             Expect.has_keys env self keys
             = Expect.Raise
                 (ExpectError message [record false] response report)
                 (Expect.append_check self (record false))).
Proof.
  intros env self d keys Hcur record. subst record.
  unfold Expect.has_keys. rewrite Hcur.
  rewrite missing_keys_of_dict, none_missing_iff_all_present.
  destruct (forallb (has_key d) keys) eqn:Hall; cbn.
  - split; [| left; reflexivity].
    split; [intros _ | reflexivity].
    intros k Hin. rewrite forallb_forall in Hall.
    specialize (Hall k Hin). unfold has_key in Hall.
    destruct (dict_get k d) as [v |]; [now exists v | discriminate].
  - split; [| right; do 3 eexists; reflexivity].
    split; [discriminate |].
    intros Hkeys. exfalso.
    assert (Hall' : forallb (has_key d) keys = true).
    { apply forallb_forall. intros k Hin.
      destruct (Hkeys k Hin) as [v Hv]. unfold has_key. now rewrite Hv. }
    congruence.
Qed.

(** [has_keys("a", "b")] on the dictionary with the single key [a] fails,
    [has_keys("a")] passes. *)
Lemma has_keys_on_dictionary_witness :
  let record ok :=
    Build_Check ok "keys presence check" (VSet ["a"]) (VSet ["a"])
                (Some "users endpoint") Sample.clock in
  (Expect.has_keys Sample.env Fixture.chain_on_dict ["a"]
     = Expect.Return (Expect.append_check Fixture.chain_on_dict (record true))
   <-> forall k, In k ["a"] -> exists v, dict_get k [("a", VInt 1)] = Some v)
  /\ (Expect.has_keys Sample.env Fixture.chain_on_dict ["a"]
        = Expect.Return (Expect.append_check Fixture.chain_on_dict (record true))
      \/ exists message response report,
           Expect.has_keys Sample.env Fixture.chain_on_dict ["a"]
           = Expect.Raise
               (ExpectError message [record false] response report)
               (Expect.append_check Fixture.chain_on_dict (record false))).
Proof.
  apply (@has_keys_on_dictionary Sample.env Fixture.chain_on_dict
           [("a", VInt 1)] ["a"]).
  reflexivity.
Defined.

(** X8.  [has_keys] needs a dictionary: on any other cursor it never
    passes and never fails as an assertion.  It raises [TypeError] when the
    cursor has no membership test for one of the names, and
    [AttributeError] otherwise (a text or a list answers [in] but offers no
    [keys()]); the chain is left as it was. *)
Theorem has_keys_needs_a_dictionary :
  forall (env : Env) (self : Expect.t) (keys : list string),
    (forall d, Expect._current_value self <> VDict d) ->
    Expect.has_keys env self keys = Expect.Raise TypeError self
    \/ Expect.has_keys env self keys = Expect.Raise AttributeError self.
Proof.
  intros env self keys Hnot. unfold Expect.has_keys.
  destruct (Expect.missing_keys keys (Expect._current_value self));
    [| left; reflexivity].
  destruct (Expect._current_value self) as [| | | | | d |] eqn:Hcur;
    try (right; reflexivity).
  exfalso. now apply (Hnot d).
Qed.

Lemma has_keys_needs_a_dictionary_witness :
  Expect.has_keys Sample.env Fixture.chain_on_text ["found"]
    = Expect.Raise TypeError Fixture.chain_on_text
  \/ Expect.has_keys Sample.env Fixture.chain_on_text ["found"]
    = Expect.Raise AttributeError Fixture.chain_on_text.
Proof.
  apply (@has_keys_needs_a_dictionary Sample.env Fixture.chain_on_text
           ["found"]).
  intros d. discriminate.
Defined.

(** ** Lengths and slices in code points *)




(** ** Joining lines *)

Lemma join_cons (sep p : string) (rest : list string) :
  rest <> [] -> join sep (p :: rest) = p ++ sep ++ join sep rest.
Proof. destruct rest; [contradiction | reflexivity]. Qed.

Lemma append_assoc (a b c : string) : (a ++ b) ++ c = a ++ b ++ c.
Proof. induction a as [| x a IH]; [reflexivity | cbn; now rewrite IH]. Qed.

Lemma append_nil_r (a : string) : a ++ "" = a.
Proof. induction a as [| x a IH]; [reflexivity | cbn; now rewrite IH]. Qed.

Lemma join_app (sep : string) (a b : list string) :
  a <> [] -> b <> [] ->
  join sep (a ++ b)%list = join sep a ++ sep ++ join sep b.
Proof.
  intros Ha Hb. induction a as [| p a IH]; [contradiction |].
  destruct a as [| q a].
  - cbn [app]. rewrite join_cons by exact Hb. reflexivity.
  - change ((p :: q :: a) ++ b)%list with (p :: ((q :: a) ++ b))%list.
    rewrite join_cons by discriminate.
    rewrite IH by discriminate.
    rewrite (@join_cons sep p (q :: a)) by discriminate.
    now rewrite !append_assoc.
Qed.

(** A run of lines inside a list of lines is a run of text inside their
    join. *)
Lemma join_middle (sep : string) (before mid after : list string) :
  mid <> [] ->
  exists pre post,
    join sep (before ++ mid ++ after)%list = pre ++ join sep mid ++ post.
Proof.
  intros Hmid.
  assert (Hright : exists post,
             join sep (mid ++ after)%list = join sep mid ++ post).
  { destruct after as [| x after].
    - exists "". now rewrite app_nil_r, append_nil_r.
    - exists (sep ++ join sep (x :: after)).
      now rewrite join_app by (assumption || discriminate). }
  destruct Hright as [post Hpost].
  destruct before as [| x before].
  - exists "", post. exact Hpost.
  - exists (join sep (x :: before) ++ sep), post.
    rewrite join_app; [| discriminate |].
    + now rewrite Hpost, !append_assoc.
    + destruct mid; [contradiction | discriminate].
Qed.

(** ** The report *)


(** X10.  The test location of a report is the innermost frame whose
    function name starts with [test_]: the frames between the chain and that
    frame are skipped, the frames outside it are not looked at. *)
Theorem test_info_is_innermost_test_frame :
  forall (helpers : list Frame) (test : Frame) (outer : list Frame),
    Forall (fun f => starts_with "test_" (co_name f) = false) helpers ->
    starts_with "test_" (co_name test) = true ->
    test_info (helpers ++ test :: outer)%list
    = "Test: " ++ co_name test ++ nl ++
      "File: " ++ co_filename test ++ ":" ++ str_int (f_lineno test).
Proof.
  intros helpers test outer Hhelpers Htest. unfold test_info.
  induction Hhelpers as [| h helpers Hh _ IH]; cbn [app find].
  - now rewrite Htest.
  - rewrite Hh. exact IH.
Qed.

Lemma test_info_is_innermost_test_frame_witness :
  test_info (frames Sample.env)
  = "Test: test_users" ++ nl ++ "File: test_api.py:21".
Proof.
  apply (@test_info_is_innermost_test_frame
           [ {| co_name := "check_users"; co_filename := "helpers.py";
                f_lineno := 8 |} ]
           {| co_name := "test_users"; co_filename := "test_api.py";
              f_lineno := 21 |}
           []).
  - constructor; [reflexivity | constructor].
  - reflexivity.
Defined.

(** The block of a failed record is a run of text of the report. *)
Lemma failure_block_in_report (frames : list Frame) (checks : list Check)
    (response : option Response) (check : Check) :
  In check checks ->
  passed check = false ->
  exists pre post,
    format_message frames checks response
    = pre ++
      ("❌ Failure:" ++ nl ++
       "   → Type: " ++ message check ++ nl ++
       "   → Expected: " ++ py_str (expected check) ++ nl ++
       "   → Received: " ++ py_str (actual check) ++ nl ++
       "   → Time: " ++ drop_last 3 (strftime_HMSf (timestamp check)) ++ nl)
      ++ post.
Proof.
  intros Hin Hfailed.
  assert (Hshown : In check (failed_checks checks)).
  { unfold failed_checks. apply filter_In. split; [exact Hin |].
    now rewrite Hfailed. }
  apply in_split in Hshown. destruct Hshown as [f1 [f2 Hsplit]].
  unfold format_message. rewrite Hsplit.
  rewrite flat_map_app. cbn [flat_map].
  cbn [List.concat]. rewrite app_nil_r.
  set (head := [nl ++ "🔴 TEST ASSERTION FAILED"; divider; ""]).
  match goal with
  | |- exists pre post, join nl (head ++ ?tb ++ ?rb ++ (?b1 ++ ?blk ++ ?b2) ++ ?d)%list = _ =>
      replace (head ++ tb ++ rb ++ (b1 ++ blk ++ b2) ++ d)%list
        with ((head ++ tb ++ rb ++ b1) ++ blk ++ (b2 ++ d))%list
        by (now rewrite <- !app_assoc);
      destruct (@join_middle nl (head ++ tb ++ rb ++ b1)%list blk
                             (b2 ++ d)%list) as [pre [post Hjoin]];
        [discriminate |]
  end.
  exists pre, post. rewrite Hjoin. reflexivity.
Qed.

(** The line of the status code is a run of text of the report of a
    response. *)
Lemma status_line_in_report (frames : list Frame) (checks : list Check)
    (r : Response) :
  exists pre post,
    format_message frames checks (Some r)
    = pre ++ ("   • Status: " ++ py_str (status_code r)) ++ post.
Proof.
  unfold format_message. cbn [response_block List.concat].
  set (head := [nl ++ "🔴 TEST ASSERTION FAILED"; divider; ""]).
  match goal with
  | |- exists pre post,
         join nl (head ++ ?tb ++ ((?title :: ?line :: ?r1) ++ ?r2) ++ ?rest)%list
         = _ =>
      replace (head ++ tb ++ ((title :: line :: r1) ++ r2) ++ rest)%list
        with ((head ++ tb ++ [title]) ++ [line] ++ (r1 ++ r2 ++ rest))%list
        by (rewrite <- !app_assoc; reflexivity);
      destruct (@join_middle nl (head ++ tb ++ [title])%list [line]
                             (r1 ++ r2 ++ rest)%list) as [pre [post Hjoin]];
        [discriminate |]
  end.
  exists pre, post. rewrite Hjoin. reflexivity.
Qed.

(** X11.  Every record that failed is shown in the report with its own
    block: the label of the predicate, the expected and the received value
    as text, and the time of the record, on consecutive lines. *)
Theorem report_shows_every_failed_record :
  forall (frames : list Frame) (checks : list Check)
         (response : option Response) (check : Check),
    In check checks ->
    passed check = false ->
    exists pre post,
      format_message frames checks response
      = pre ++
        ("❌ Failure:" ++ nl ++
         "   → Type: " ++ message check ++ nl ++
         "   → Expected: " ++ py_str (expected check) ++ nl ++
         "   → Received: " ++ py_str (actual check) ++ nl ++
         "   → Time: " ++ drop_last 3 (strftime_HMSf (timestamp check)) ++ nl)
        ++ post.
Proof.
  intros frames checks response check Hin Hfailed.
  now apply failure_block_in_report.
Qed.

Lemma report_shows_every_failed_record_witness :
  exists pre post,
    format_message (frames Sample.env)
                   [Sample.passing_check; Sample.failing_check]
                   (Some Sample.response_ok)
    = pre ++
      ("❌ Failure:" ++ nl ++
       "   → Type: length check" ++ nl ++
       "   → Expected: 3" ++ nl ++
       "   → Received: 2" ++ nl ++
       "   → Time: 09:41:03.120" ++ nl)
      ++ post.
Proof.
  apply (@report_shows_every_failed_record (frames Sample.env)
           [Sample.passing_check; Sample.failing_check]
           (Some Sample.response_ok) Sample.failing_check).
  - right. left. reflexivity.
  - reflexivity.
Defined.

(** ** The hook of [conftest.py] *)

Lemma find_test_frame (frames : list Frame) :
  existsb (fun f => starts_with "test_" (co_name f)) frames = true ->
  test_block frames
  = [ "📋 Test Information:";
      "   " ++ bullet ++ " " ++ test_info frames;
      "" ].
Proof.
  intros Hsome. unfold test_block, test_info.
  induction frames as [| f frames IH]; [discriminate |].
  cbn [existsb find] in *.
  destruct (starts_with "test_" (co_name f)); [reflexivity |].
  apply IH. exact Hsome.
Qed.


(** X12.  When the stack walk of the formatter found the test, the hook
    hands the report of the signal to the test framework as it is. *)
Theorem hook_keeps_a_located_report :
  forall (node : Conftest.Node) (lineno : Z) (frames : list Frame)
         (message : string) (checks : list Check)
         (response : option Response),
    existsb (fun f => starts_with "test_" (co_name f)) frames = true ->
    Conftest.pytest_exception_interact
      node (new_ExpectError frames message checks response) lineno
    = Some (format_message frames checks response).
Proof.
  intros node lineno frames message checks response Hsome.
  unfold new_ExpectError, Conftest.pytest_exception_interact.
  assert (Hin : is_substring "Test Information:"
                  (format_message frames checks response) = true).
  { apply is_substring_iff. unfold format_message.
    rewrite (find_test_frame frames Hsome). cbn [List.concat].
    set (head := [nl ++ "🔴 TEST ASSERTION FAILED"; divider; ""]).
    match goal with
    | |- exists pre post, join nl (head ++ (?t1 :: ?rest1) ++ ?rest2)%list = _ =>
        destruct (@join_middle nl head [t1] (rest1 ++ rest2)%list)
          as [pre [post Hjoin]]; [discriminate |];
        change (head ++ (t1 :: rest1) ++ rest2)%list
          with (head ++ [t1] ++ rest1 ++ rest2)%list
    end.
    rewrite Hjoin. cbn [join].
    exists (pre ++ "📋 "), post.
    now rewrite !append_assoc. }
  rewrite Hin. reflexivity.
Qed.

Lemma hook_keeps_a_located_report_witness :
  Conftest.pytest_exception_interact
    Fixture.node
    (new_ExpectError (frames Sample.env) "Assertion failed"
                     [Sample.failing_check] (Some Sample.response_ok))
    20
  = Some (format_message (frames Sample.env) [Sample.failing_check]
                         (Some Sample.response_ok)).
Proof.
  apply (@hook_keeps_a_located_report Fixture.node 20 (frames Sample.env)
           "Assertion failed" [Sample.failing_check]
           (Some Sample.response_ok)).
  reflexivity.
Defined.




(** ** Order *)






(** ** From a failed predicate to its report *)

(** X15.  The report a failed predicate raises shows what is needed to
    read the failure: the line of the status code of the response, and the
    block of the failed record with the label of the predicate and the
    expected and received values as text. *)
Theorem failed_predicate_report_shows_the_failure :
  forall re_match load_schema validate
         (p : PredicateCall) (env : Env) (self : Expect.t) (ev : Evaluation),
    predicate_evaluation re_match load_schema validate p self = Some ev ->
    holds ev = false ->
    exists message checks response report self',
      run_predicate re_match load_schema validate p env self
      = Expect.Raise (ExpectError message checks response report) self'
      /\ (exists pre post,
            report
            = pre ++ ("   • Status: " ++
                      py_str (status_code (Expect.response self))) ++ post)
      /\ (exists pre post,
            report
            = pre ++ ("   → Type: " ++ label ev ++ nl ++
                      "   → Expected: " ++ py_str (against ev) ++ nl ++
                      "   → Received: " ++ py_str (observed ev) ++ nl)
              ++ post).
Proof.
  intros re_match load_schema validate p env self ev Hev Hfalse.
  rewrite (run_predicate_evaluated _ _ _ p env self Hev), Hfalse.
  rewrite add_check_failed. unfold new_ExpectError.
  do 5 eexists. split; [reflexivity |]. split.
  - apply status_line_in_report.
  - match goal with
    | |- exists pre post, format_message ?f [?c] ?r = _ =>
        destruct (@failure_block_in_report f [c] r c) as [pre [post Hblock]];
          [left; reflexivity | reflexivity |]
    end.
    exists (pre ++ "❌ Failure:" ++ nl).
    cbn [message expected actual timestamp] in Hblock.
    eexists. rewrite Hblock.
    rewrite !append_assoc. reflexivity.
Qed.

(** [status()] then [equals(200)] on a response with status 404. *)
Lemma failed_predicate_report_shows_the_failure_witness :
  exists message checks response report self',
    run_predicate Sample.no_regex Sample.no_loader Sample.no_validator
                  (CallEquals (VInt 200)) Sample.env
                  (Expect.set_current_value
                     (Expect.init Sample.response_not_found None) (VInt 404))
    = Expect.Raise (ExpectError message checks response report) self'
    /\ (exists pre post,
          report = pre ++ ("   • Status: " ++ "404") ++ post)
    /\ (exists pre post,
          report
          = pre ++ ("   → Type: " ++ "equality check" ++ nl ++
                    "   → Expected: " ++ "200" ++ nl ++
                    "   → Received: " ++ "404" ++ nl)
            ++ post).
Proof.
  apply (@failed_predicate_report_shows_the_failure
           Sample.no_regex Sample.no_loader Sample.no_validator
           (CallEquals (VInt 200)) Sample.env
           (Expect.set_current_value
              (Expect.init Sample.response_not_found None) (VInt 404))
           {| holds := false; label := "equality check";
              observed := VInt 404; against := VInt 200 |}).
  - reflexivity.
  - reflexivity.
Defined.

(** ** [status] with a code *)

(** X16.  [status(code)] is [status()] followed by [equals(code)]: the
    cursor becomes the status code, then the comparison by text runs once.
    It returns exactly when the text of the status code is the text of
    [code], and the cursor is the status code whether it returns or
    raises. *)
Theorem status_with_code_is_status_then_equals :
  forall (env : Env) (self : Expect.t) (code : PyVal),
    code <> VNone ->
    Expect.status env self code
      = Expect.bind (Expect.status env self VNone)
                    (fun self' => Expect.equals env self' code)
    /\ ((exists self', Expect.status env self code = Expect.Return self')
        <-> py_str (status_code (Expect.response self)) = py_str code)
    /\ Expect._current_value (Expect.final (Expect.status env self code))
       = status_code (Expect.response self).
Proof.
  intros env self code Hcode.
  assert (Hgiven : is_not_none code = true)
    by (destruct code; try reflexivity; contradiction).
  unfold Expect.status. rewrite Hgiven. cbn [is_not_none Expect.bind].
  split; [reflexivity |].
  unfold Expect.equals. cbn [Expect._current_value Expect.set_current_value].
  destruct (String.eqb_spec (py_str (status_code (Expect.response self)))
                            (py_str code)) as [Heq | Hneq]; cbn.
  - split; [| reflexivity].
    split; [intros _; exact Heq | intros _; eexists; reflexivity].
  - split; [| reflexivity].
    split; [intros [self' H]; discriminate H | contradiction].
Qed.

Lemma status_with_code_is_status_then_equals_witness :
  Expect.status Sample.env (Expect.init Sample.response_not_found None)
                (VStr "404")
    = Expect.bind
        (Expect.status Sample.env
                       (Expect.init Sample.response_not_found None) VNone)
        (fun self' => Expect.equals Sample.env self' (VStr "404"))
  /\ ((exists self',
         Expect.status Sample.env
                       (Expect.init Sample.response_not_found None)
                       (VStr "404")
         = Expect.Return self')
      <-> py_str (VInt 404) = py_str (VStr "404"))
  /\ Expect._current_value
       (Expect.final
          (Expect.status Sample.env
                         (Expect.init Sample.response_not_found None)
                         (VStr "404")))
     = VInt 404.
Proof.
  apply (@status_with_code_is_status_then_equals Sample.env
           (Expect.init Sample.response_not_found None) (VStr "404")).
  discriminate.
Defined.

(** ** [body] with a path on a truthy body *)

(** X17.  When a path is given and the decoded body is truthy, [body]
    moves the cursor to the value of the first match, whatever the cursor
    was and however many matches follow, and touches nothing else of the
    chain; and whenever parsing or evaluating the path raises, whatever the
    error, [body] raises [ValueError] naming the path and the cursor stays
    where it was. *)
Theorem body_with_path_takes_the_first_match :
  forall jsonpath_find (self : Expect.t) (path : string),
    path <> "" ->
    py_bool (json_data (Expect.response self)) = true ->
    (forall first others,
        jsonpath_find path (json_data (Expect.response self))
        = Some (first :: others) ->
        exists self',
          Expect.body jsonpath_find self (Some path) = Expect.Return self'
          /\ Expect._current_value self' = first
          /\ Expect.checks self' = Expect.checks self
          /\ Expect.context self' = Expect.context self
          /\ Expect.response self' = Expect.response self)
    /\ (jsonpath_find path (json_data (Expect.response self)) = None ->
        exists self',
          Expect.body jsonpath_find self (Some path)
          = Expect.Raise (ValueError ("Invalid JSONPath: " ++ path)) self'
          /\ Expect._current_value self' = Expect._current_value self
          /\ Expect.checks self' = Expect.checks self).
Proof.
  intros jsonpath_find self path Hpath Htruthy.
  unfold Expect.body, Expect.path_given.
  destruct (String.eqb_spec path "") as [Heq | _]; [contradiction |].
  cbn [negb Expect.path_text]. rewrite Htruthy. cbn [negb].
  split.
  - intros first others ->. eexists. repeat split.
  - intros ->. eexists. repeat split.
Qed.

(** A path with two matches on a chain whose cursor was the status code:
    the cursor becomes the first of the two. *)
Lemma body_with_path_takes_the_first_match_witness :
  exists self',
    Expect.body Fixture.finds_two Sample.chain_on_status (Some "$..id")
    = Expect.Return self'
    /\ Expect._current_value self' = VInt 1
    /\ Expect.checks self' = [Sample.passing_check]
    /\ Expect.context self' = Some "users endpoint"
    /\ Expect.response self' = Sample.response_ok.
Proof.
  apply (proj1 (@body_with_path_takes_the_first_match
                  Fixture.finds_two Sample.chain_on_status "$..id"
                  ltac:(discriminate) eq_refl)
               (VInt 1) [VInt 2]).
  reflexivity.
Defined.

(** ** [has_length] *)



(** ** The report and the test location *)

Lemma string_length_app (a b : string) :
  String.length (a ++ b) = (String.length a + String.length b)%nat.
Proof. induction a as [| c a IH]; [reflexivity | cbn; now rewrite IH]. Qed.

Lemma append_cancel_l (a b c : string) : a ++ b = a ++ c -> b = c.
Proof.
  induction a as [| x a IH]; cbn; intros H; [exact H |].
  injection H as H. now apply IH.
Qed.

Lemma append_cancel_r (a b c : string) : a ++ c = b ++ c -> a = b.
Proof.
  revert b. induction a as [| x a IH]; intros [| y b] H.
  - reflexivity.
  - apply (f_equal String.length) in H.
    rewrite !string_length_app in H. cbn in H. lia.
  - apply (f_equal String.length) in H.
    rewrite !string_length_app in H. cbn in H. lia.
  - cbn in H. injection H as -> H. f_equal. now apply IH.
Qed.

(** The report, cut at the place of the test location: the banner and the
    rule, then the block of the test if the stack walk found one, then the
    response block, the failure blocks and the closing rule. *)
Lemma report_by_location (frames : list Frame) (checks : list Check)
    (response : option Response) :
  format_message frames checks response
  = (nl ++ Conftest.banner ++ nl ++ divider ++ nl ++ nl) ++
    (if String.eqb (test_info frames) "" then ""
     else "📋 Test Information:" ++ nl ++
          "   • " ++ test_info frames ++ nl ++ nl) ++
    join nl (response_block response ++
             flat_map failure_block (failed_checks checks) ++
             [divider])%list.
Proof.
  unfold format_message, test_block. cbn [List.concat].
  rewrite app_nil_r.
  set (rest := (response_block response ++
                flat_map failure_block (failed_checks checks) ++
                [divider])%list).
  assert (Hrest : rest <> []).
  { subst rest. intros H. apply app_eq_nil in H. destruct H as [_ H].
    apply app_eq_nil in H. destruct H as [_ H]. discriminate H. }
  destruct (String.eqb (test_info frames) ""); cbn [negb app].
  - rewrite join_cons by discriminate.
    rewrite join_cons by discriminate.
    rewrite join_cons by exact Hrest.
    now rewrite !append_assoc.
  - rewrite join_cons by discriminate.
    rewrite join_cons by discriminate.
    rewrite join_cons by discriminate.
    rewrite join_cons by discriminate.
    rewrite join_cons by discriminate.
    rewrite join_cons by exact Hrest.
    rewrite !append_assoc. reflexivity.
Qed.

(** C7, as the specification words it, fails: the same failed records and
    the same response do not fix the text of the report.  The formatter
    also reads the call stack, and the same test one line further down
    gives another text. *)
Lemma format_message_not_fixed_by_records_and_response :
  ~ (forall (frames1 frames2 : list Frame) (checks : list Check)
            (response : option Response),
       format_message frames1 checks response
       = format_message frames2 checks response).
Proof.
  intros claim.
  apply format_message_reads_the_test_location.
  apply claim.
Qed.

(** C7, amended.  With the same sequence of failed records (their
    timestamps included) and the same response, two runs of
    [format_message] give the same text, byte for byte, exactly when they
    find the same test location on the call stack: the name, the file and
    the current line of the innermost test function, or none.  Records that
    passed and the other frames do not reach the report. *)
Theorem reports_agree_iff_same_test_location :
  forall (frames1 frames2 : list Frame) (checks1 checks2 : list Check)
         (response : option Response),
    failed_checks checks1 = failed_checks checks2 ->
    (format_message frames1 checks1 response
     = format_message frames2 checks2 response
     <-> test_info frames1 = test_info frames2).
Proof.
  intros frames1 frames2 checks1 checks2 response Hfailed.
  rewrite !report_by_location, Hfailed.
  split.
  - intros Hsame.
    apply append_cancel_l, append_cancel_r in Hsame.
    destruct (String.eqb_spec (test_info frames1) "") as [H1 | H1];
      destruct (String.eqb_spec (test_info frames2) "") as [H2 | H2].
    + congruence.
    + discriminate Hsame.
    + discriminate Hsame.
    + apply append_cancel_l, append_cancel_l, append_cancel_l in Hsame.
      now apply append_cancel_r in Hsame.
  - intros ->. reflexivity.
Qed.

(** Called from the same line of the same test, once through a helper and
    once directly, once with a record that passed and once without: the two
    reports are the same text. *)
Lemma reports_agree_iff_same_test_location_witness :
  format_message (frames Sample.env)
                 [Sample.passing_check; Sample.failing_check]
                 (Some Sample.response_ok)
  = format_message (frames Sample.env_direct) [Sample.failing_check]
                   (Some Sample.response_ok).
Proof.
  apply (proj2 (@reports_agree_iff_same_test_location
                  (frames Sample.env) (frames Sample.env_direct)
                  [Sample.passing_check; Sample.failing_check]
                  [Sample.failing_check] (Some Sample.response_ok)
                  eq_refl)).
  reflexivity.
Defined.
